(** * flaskr: the session-authenticated blog workflow

    A shallow embedding of [flaskr/db.py], [flaskr/auth.py], [flaskr/blog.py]
    and [flaskr/__init__.py].  The SQLite store is two lists of rows, the
    Flask request context ([request], [session], [g], the flash queue) is a
    record threaded through a state-and-exception monad, and every view is a
    computation in that monad. *)

From stdpp Require Import gmap strings list pretty sorting.

Local Open Scope string_scope.
Local Open Scope list_scope.
Local Open Scope Z_scope.

(** ** The store: rows, tables and the SQL statements of the views *)

Module Store.

(** [user (id, username, password)]: the columns the views read are
    [user['id']] and [user['password']]; [username] is the lookup key. *)
Record user_row := UserRow {
  user_id : Z;
  username : string;
  password : string
}.

(** [post (id, author_id, created, title, body)]. [created] is the
    timestamp the store sets at insert time, as seconds on its clock. *)
Record post_row := PostRow {
  post_id : Z;
  author_id : Z;
  created : Z;
  title : string;
  body : string
}.

Record database := Database {
  user : list user_row;
  post : list post_row
}.

(** One row of
    [SELECT p.id, title, body, created, author_id, username
     FROM post p JOIN user u ON p.author_id = u.id]. *)
Record post_view := PostView {
  v_id : Z;
  v_title : string;
  v_body : string;
  v_created : Z;
  v_author_id : Z;
  v_username : string
}.

#[global] Instance user_row_eq_dec : EqDecision user_row.
Proof. solve_decision. Defined.
#[global] Instance post_row_eq_dec : EqDecision post_row.
Proof. solve_decision. Defined.
#[global] Instance post_view_eq_dec : EqDecision post_view.
Proof. solve_decision. Defined.
#[global] Instance database_eq_dec : EqDecision database.
Proof. solve_decision. Defined.

Definition join_row (p : post_row) (u : user_row) : post_view :=
  PostView (post_id p) (title p) (body p) (created p) (author_id p)
           (username u).

(** [FROM post p JOIN user u ON p.author_id = u.id]: for each post, in
    table order, the user rows whose id is its author. *)
Definition post_join_user (db : database) : list post_view :=
  p ← post db;
  join_row p <$> filter (λ u, author_id p = user_id u) (user db).

(** [SELECT * FROM user WHERE username = ?], [fetchone()]. *)
Definition select_user_by_username (name : string) (db : database)
  : option user_row :=
  head (filter (λ u, username u = name) (user db)).

(** [SELECT * FROM user WHERE id = ?], [fetchone()]. *)
Definition select_user_by_id (id : Z) (db : database) : option user_row :=
  head (filter (λ u, user_id u = id) (user db)).

(** SQLite stores an INTEGER in 64 bits, sign included. *)
Definition sqlite_integer (z : Z) : Prop := - 2 ^ 63 ≤ z < 2 ^ 63.

(** What [sqlite3] can bind as the [id] of a query on [post]: an integer
    SQLite can store.  The ids in the table are integers it has stored;
    any other integer is one when it fits 64 bits.  Asked to bind anything
    else, [execute] raises [OverflowError] and runs no query. *)
Definition bindable_post_id (id : Z) (db : database) : Prop :=
  id ∈ post_id <$> post db ∨ sqlite_integer id.

(** [... JOIN ... WHERE p.id = ?], [fetchone()]. *)
Definition select_post_by_id (id : Z) (db : database) : option post_view :=
  head (filter (λ v, v_id v = id) (post_join_user db)).

(** [ORDER BY created DESC] as a stable insertion: a row goes in front of
    the first row that is not newer than it, so rows with equal [created]
    keep the order the join produced them in. *)
Fixpoint insert_desc (v : post_view) (l : list post_view) : list post_view :=
  match l with
  | [] => [v]
  | w :: l' =>
      if bool_decide (v_created w ≤ v_created v) then v :: w :: l'
      else w :: insert_desc v l'
  end.

Definition order_by_created_desc (l : list post_view) : list post_view :=
  foldr insert_desc [] l.

(** [v] may stand before [w] in a listing that is newest first. *)
Definition newer_first (v w : post_view) : Prop := v_created w ≤ v_created v.

(** [SELECT ... FROM post p JOIN user u ... ORDER BY created DESC],
    [fetchall()]. *)
Definition select_posts (db : database) : list post_view :=
  order_by_created_desc (post_join_user db).

(** Modelled from the spec: [schema.sql] is not among the sources.  The
    spec gives both tables an [id] that is a unique integer generated by
    the store; the next id is one more than the largest in the table. *)
Definition next_id (ids : list Z) : Z := 1 + foldr Z.max 0 ids.

(** Modelled from the spec: [schema.sql] is not among the sources.  The
    spec declares [username UNIQUE NOT NULL]; the views catch the store's
    [IntegrityError] for it.  [None] is that error, and the table is left
    as it was. *)
Definition insert_user (name hash : string) (db : database)
  : option database :=
  if bool_decide (name ∈ username <$> user db) then None
  else Some (Database
               (user db ++ [UserRow (next_id (user_id <$> user db)) name hash])
               (post db)).

(** [INSERT INTO post (title, body, author_id) VALUES (?, ?, ?)]; the
    store fills in [id] and [created], which the spec's schema defaults to
    the time of the insert (its clock reads [now]). *)
Definition insert_post (ttl bdy : string) (author now : Z) (db : database)
  : database :=
  Database (user db)
           (post db ++ [PostRow (next_id (post_id <$> post db)) author now
                                ttl bdy]).

(** [UPDATE post SET title = ?, body = ? WHERE id = ?]. *)
Definition set_title_body (ttl bdy : string) (p : post_row) : post_row :=
  PostRow (post_id p) (author_id p) (created p) ttl bdy.

Definition update_post (ttl bdy : string) (id : Z) (db : database)
  : database :=
  Database (user db)
           ((λ p, if bool_decide (post_id p = id)
                  then set_title_body ttl bdy p else p) <$> post db).

(** [DELETE FROM post WHERE id = ?]. *)
Definition delete_post (id : Z) (db : database) : database :=
  Database (user db) (filter (λ p, post_id p ≠ id) (post db)).

(** Modelled from the spec: [schema.sql] is not among the sources.  The
    constraints the spec lists for the two tables: [id] is a primary key
    in both, [username] is unique, and [author_id] references a user. *)
Record schema_ok (db : database) : Prop := SchemaOk {
  user_pk : NoDup (user_id <$> user db);
  username_unique : NoDup (username <$> user db);
  post_pk : NoDup (post_id <$> post db);
  author_fk : ∀ p, p ∈ post db → ∃ u, u ∈ user db ∧ user_id u = author_id p
}.

End Store.

(** ** The request context Flask provides to a view *)

Module Flask.
Import Store.

(** [request.method]: the two methods the routes name, the two Flask adds
    to a route on its own, and any other. *)
Inductive http_method := GET | HEAD | POST | OPTIONS | OTHER.

#[global] Instance http_method_eq_dec : EqDecision http_method.
Proof. solve_decision. Defined.

(** [request.method] and [request.form]. *)
Record http_request := HttpRequest {
  method : http_method;
  form : gmap string string
}.

(** What a view can raise. *)
Inductive exn :=
| HTTPException (code : Z) (description : option string)
  (** [abort(code, description)] *)
| BadRequestKeyError (key : string)
  (** [request.form[key]] with no such key; an [HTTPException] with code 400 *)
| IntegrityError
  (** [sqlite3.IntegrityError], raised by [db.execute] *)
| TypeError
  (** subscripting [None] *)
| OverflowError
  (** [sqlite3] asked to bind an integer that SQLite cannot store *)
| BuildError (endpoint : string)
  (** [url_for] of an endpoint that is not registered *).

(** What [render_template] is given besides the template's name. *)
Inductive template_args :=
| NoArgs
| Posts (posts : list post_view)
| Post (post : post_view).

Inductive response :=
| Redirect (status : Z) (location : string)
| Page (template : string) (args : template_args)
| Body (text : string)
| Options
  (** Flask's own answer to an OPTIONS request: 200 with the [Allow]
      header *)
| Error (status : Z) (description : option string).

(** The state one request runs in.  [request] is the request being
    served.  [db] is what the connection [get_db()] returns reads and
    writes; [committed] is the database file as other connections and later
    requests find it; [now] is the store's clock.  [g_user] is [g.user].
    [flashes] is the queue [flash] appends to.  Flask keeps it in the
    session, under a key of its own; it is kept apart here from the keys
    the views themselves store in [session], and [session.clear()] empties
    both. *)
Record state := State {
  request : http_request;
  db : database;
  committed : database;
  now : Z;
  session : gmap string Z;
  flashes : list string;
  g_user : option user_row
}.

Definition with_db (d : database) (st : state) : state :=
  State (request st) d (committed st) (now st) (session st) (flashes st)
        (g_user st).
Definition with_committed (d : database) (st : state) : state :=
  State (request st) (db st) d (now st) (session st) (flashes st) (g_user st).
Definition with_session (s : gmap string Z) (st : state) : state :=
  State (request st) (db st) (committed st) (now st) s (flashes st) (g_user st).
Definition with_flashes (f : list string) (st : state) : state :=
  State (request st) (db st) (committed st) (now st) (session st) f (g_user st).
Definition with_g_user (u : option user_row) (st : state) : state :=
  State (request st) (db st) (committed st) (now st) (session st) (flashes st) u.

Inductive outcome (A : Type) :=
| Return (a : A)
| Raise (e : exn).
Arguments Return {A} a.
Arguments Raise {A} e.

(** A view, and every step of one: it runs on the request's state and
    either returns or raises, leaving the state as it was at that point. *)
Definition M (A : Type) : Type := state → outcome A * state.

#[global] Instance M_ret : MRet M := λ A a st, (Return a, st).
#[global] Instance M_bind : MBind M := λ A B k m st,
  match m st with
  | (Return a, st') => k a st'
  | (Raise e, st') => (Raise e, st')
  end.
#[global] Instance M_throw : MThrow exn M := λ A e st, (Raise e, st).

Definition get_state : M state := λ st, (Return st, st).
Definition put_state (st : state) : M unit := λ _, (Return (), st).

(** [try: body / except IntegrityError: ... / else: ...]: [Some a] when the
    body returned [a] (the [else] branch follows), [None] when it raised
    [IntegrityError] (the [except] branch follows); any other exception
    passes through. *)
Definition try_except_IntegrityError {A} (body : M A) : M (option A) :=
  λ st,
    match body st with
    | (Return a, st') => (Return (Some a), st')
    | (Raise IntegrityError, st') => (Return None, st')
    | (Raise e, st') => (Raise e, st')
    end.

(** [request.form[key]]. *)
Definition form_get (key : string) : M string :=
  st ← get_state;
  match form (request st) !! key with
  | Some v => mret v
  | None => mthrow (BadRequestKeyError key)
  end.

(** [session.get(key)], [session[key] = v], [session.clear()]. *)
Definition session_get (key : string) : M (option Z) :=
  st ← get_state; mret (session st !! key).

Definition session_set (key : string) (v : Z) : M unit :=
  st ← get_state; put_state (with_session (<[key := v]> (session st)) st).

(** [session.clear()], which takes the flashed messages with it. *)
Definition session_clear : M unit :=
  st ← get_state; put_state (with_flashes [] (with_session ∅ st)).

(** [flash(message)]. *)
Definition flash (message : string) : M unit :=
  st ← get_state; put_state (with_flashes (flashes st ++ [message]) st).

(** The rules the application registers: the [auth] blueprint under
    [/auth], the [blog] blueprint with no prefix, [/hello], and
    [app.add_url_rule('/', endpoint='index')].  Only rules without
    arguments are listed: the views build no other URL. *)
Definition url_map : list (string * string) :=
  [ ("hello", "/hello");
    ("auth.register", "/auth/register");
    ("auth.login", "/auth/login");
    ("auth.logout", "/auth/logout");
    ("blog.index", "/");
    ("blog.create", "/create");
    ("index", "/") ].

Definition url_for (endpoint : string) : M string :=
  match snd <$> head (filter (λ r, r.1 = endpoint) url_map) with
  | Some url => mret url
  | None => mthrow (BuildError endpoint)
  end.

(** [redirect(location)]: the views pass no [code], so the response has
    the default one, 302. *)
Definition redirect (location : string) : response := Redirect 302 location.

(** [render_template(name, **args)]. *)
Definition render_template (name : string) (args : template_args)
  : M response :=
  mret (Page name args).

(** [abort(code, description)]. *)
Definition abort {A} (code : Z) (description : option string) : M A :=
  mthrow (HTTPException code description).

(** What Flask answers when a view raised: an [HTTPException] becomes the
    response with its code, anything else is a 500. *)
Definition handle_exception (e : exn) : response :=
  match e with
  | HTTPException code description => Error code description
  | BadRequestKeyError _ => Error 400 None
  | _ => Error 500 None
  end.

End Flask.

(** ** flaskr/db.py *)

Module Db.
Import Store Flask.

(** [get_db()]: the request's connection.  It is opened on first use and
    kept in [g]; the model has it open from the start of the request, with
    the file's content (see [App.wsgi_app]).  What it returns is what the
    connection reads; the statements below run on the connection itself. *)
Definition get_db : M database :=
  st ← get_state; mret (db st).

(** [db.execute(statement)] for a statement that writes; [None] from the
    statement is the store refusing it. *)
Definition execute (statement : database → option database) : M unit :=
  st ← get_state;
  match statement (db st) with
  | Some d => put_state (with_db d st)
  | None => mthrow IntegrityError
  end.

(** [db.commit()]. *)
Definition commit : M unit :=
  st ← get_state; put_state (with_committed (db st) st).

(** [close_db()]: closing the connection drops what it did not commit. *)
Definition close_db : M unit :=
  st ← get_state; put_state (with_db (committed st) st).

End Db.

(** ** flaskr/auth.py *)

Module Auth.
Import Store Flask Db.

Section Views.

(** [werkzeug.security]: the two hash functions are taken as given. *)
Variable generate_password_hash : string → string.
Variable check_password_hash : string → string → bool.

Definition register : M response :=
  st ← get_state;
  if bool_decide (method (request st) = POST) then
    username ← form_get "username";
    password ← form_get "password";
    get_db;;
    let error :=
      if bool_decide (username = "") then Some "Username is required."
      else if bool_decide (password = "") then Some "Password is required."
      else None in
    match error with
    | None =>
        r ← try_except_IntegrityError
              (execute (insert_user username (generate_password_hash password));;
               commit);
        match r with
        | None =>
            (* except db.IntegrityError *)
            flash ("User " +:+ username +:+ " is already registered.");;
            render_template "auth/register.html" NoArgs
        | Some _ =>
            (* else *)
            url ← url_for "auth.login";
            mret (redirect url)
        end
    | Some error =>
        flash error;;
        render_template "auth/register.html" NoArgs
    end
  else render_template "auth/register.html" NoArgs.

Definition login : M response :=
  st ← get_state;
  if bool_decide (method (request st) = POST) then
    username ← form_get "username";
    password ← form_get "password";
    d ← get_db;
    let user := select_user_by_username username d in
    let error :=
      match user with
      | None => Some "Incorrect username."
      | Some u =>
          if negb (check_password_hash (Store.password u) password)
          then Some "Incorrect password."
          else None
      end in
    match error, user with
    | None, Some u =>
        session_clear;;
        session_set "user_id" (user_id u);;
        url ← url_for "index";
        mret (redirect url)
    | None, None => mthrow TypeError
    | Some error, _ =>
        flash error;;
        render_template "auth/login.html" NoArgs
    end
  else render_template "auth/login.html" NoArgs.

(** Registered with [bp.before_app_request].  The session cookie is
    signed, so the [user_id] it holds is one that [login] stored there,
    the id of a user row: binding it to the query does not overflow. *)
Definition load_logged_in_user : M unit :=
  user_id ← session_get "user_id";
  match user_id with
  | None => st ← get_state; put_state (with_g_user None st)
  | Some user_id =>
      d ← get_db;
      st ← get_state;
      put_state (with_g_user (select_user_by_id user_id d) st)
  end.

Definition logout : M response :=
  session_clear;;
  url ← url_for "index";
  mret (redirect url).

End Views.

(** The decorator: [kwargs] are the view's arguments. *)
Definition login_required {K : Type} (view : K → M response)
  : K → M response :=
  λ kwargs,
    st ← get_state;
    match g_user st with
    | None => url ← url_for "auth.login"; mret (redirect url)
    | Some _ => view kwargs
    end.

End Auth.

(** ** flaskr/blog.py *)

Module Blog.
Import Store Flask Db.

(** [g.user['id']]: subscripting [None] raises. *)
Definition g_user_id : M Z :=
  st ← get_state;
  match g_user st with
  | Some u => mret (user_id u)
  | None => mthrow TypeError
  end.

Definition index : M response :=
  d ← get_db;
  let posts := select_posts d in
  render_template "blog/index.html" (Posts posts).

Definition create : unit → M response :=
  Auth.login_required (λ _,
    st ← get_state;
    if bool_decide (method (request st) = POST) then
      title ← form_get "title";
      body ← form_get "body";
      (* error = None *)
      if bool_decide (title = "") then
        (* error = 'Title is required.' and nothing more is done with it *)
        render_template "blog/create.html" NoArgs
      else
        get_db;;
        author ← g_user_id;
        st ← get_state;
        execute (λ d, Some (insert_post title body author (now st) d));;
        commit;;
        url ← url_for "blog.index";
        mret (redirect url)
    else render_template "blog/create.html" NoArgs).

Definition get_post (id : Z) (check_author : bool) : M post_view :=
  d ← get_db;
  (* execute(..., (id,)) binds the id before the query runs *)
  (if bool_decide (bindable_post_id id d) then mret ()
   else mthrow OverflowError);;
  match select_post_by_id id d with
  | None => abort 404 (Some ("Post id " +:+ pretty id +:+ " doesn't exist."))
  | Some post =>
      if check_author then
        uid ← g_user_id;
        if bool_decide (v_author_id post ≠ uid) then abort 403 None
        else mret post
      else mret post
  end.

Definition update : Z → M response :=
  Auth.login_required (λ id,
    post ← get_post id true;
    st ← get_state;
    if bool_decide (method (request st) = POST) then
      title ← form_get "title";
      body ← form_get "body";
      let error :=
        if bool_decide (title = "") then Some "Title is required." else None in
      match error with
      | Some error =>
          flash error;;
          render_template "blog/update.html" (Post post)
      | None =>
          get_db;;
          execute (λ d, Some (update_post title body id d));;
          commit;;
          url ← url_for "blog.index";
          mret (redirect url)
      end
    else render_template "blog/update.html" (Post post)).

Definition delete : Z → M response :=
  Auth.login_required (λ id,
    get_post id true;;
    get_db;;
    execute (λ d, Some (delete_post id d));;
    commit;;
    url ← url_for "blog.index";
    mret (redirect url)).

End Blog.

(** ** flaskr/__init__.py *)

Module App.
Import Store Flask Db.

Definition hello : M response := mret (Body "Hello, World!").

(** The view functions [create_app] registers. *)
Inductive endpoint :=
| ep_hello
| ep_register
| ep_login
| ep_logout
| ep_index
| ep_create
| ep_update (id : Z)
| ep_delete (id : Z).

(** The [methods] of each route. *)
Definition methods (e : endpoint) : list http_method :=
  match e with
  | ep_hello | ep_logout | ep_index => [GET]
  | ep_register | ep_login | ep_create | ep_update _ => [GET; POST]
  | ep_delete _ => [POST]
  end.

(** The methods a request reaches the view with: those the route lists,
    and HEAD where it lists GET, which Flask adds. *)
Definition view_methods (e : endpoint) : list http_method :=
  methods e ++ (if bool_decide (GET ∈ methods e) then [HEAD] else []).

Section Application.

Variable generate_password_hash : string → string.
Variable check_password_hash : string → string → bool.

Definition view_function (e : endpoint) : M response :=
  match e with
  | ep_hello => hello
  | ep_register => Auth.register generate_password_hash
  | ep_login => Auth.login check_password_hash
  | ep_logout => Auth.logout
  | ep_index => Blog.index
  | ep_create => Blog.create ()
  | ep_update id => Blog.update id
  | ep_delete id => Blog.delete id
  end.

(** One request: the [before_app_request] function, then Flask's own
    answer if the method is OPTIONS, the view if the route takes the
    method, and 405 otherwise. *)
Definition full_dispatch_request (e : endpoint) : M response :=
  Auth.load_logged_in_user;;
  st ← get_state;
  if bool_decide (method (request st) = OPTIONS) then mret Options
  else if bool_decide (method (request st) ∈ view_methods e) then
    view_function e
  else abort 405 None.

(** What a request starts from on a server whose database file holds
    [committed st]: a fresh [g] and a connection that reads the file. *)
Definition request_context (st : state) : state :=
  with_g_user None (with_db (committed st) st).

(** The whole request cycle: the dispatch in a fresh context, the
    translation of an exception into a response, and the teardown
    [close_db]. *)
Definition wsgi_app (e : endpoint) (st : state) : response * state :=
  let '(r, st1) := full_dispatch_request e (request_context st) in
  let resp := match r with Return x => x | Raise ex => handle_exception ex end in
  (resp, with_g_user None (close_db st1).2).

End Application.

(** The user the next request is served for: what [load_logged_in_user]
    leaves in [g.user] when a request starts from [st]. *)
Definition resolve_current_user (st : state) : option user_row :=
  g_user (Auth.load_logged_in_user (request_context st)).2.

(** What one request can do to the database file: nothing, or one of the
    four writes the views make. *)
Inductive store_step (st : state) (d : database) : Prop :=
| step_none : d = committed st → store_step st d
| step_insert_user name hash :
    insert_user name hash (committed st) = Some d → store_step st d
| step_insert_post u ttl bdy :
    u ∈ user (committed st) →
    d = insert_post ttl bdy (user_id u) (now st) (committed st) →
    store_step st d
| step_update_post ttl bdy id :
    d = update_post ttl bdy id (committed st) → store_step st d
| step_delete_post id :
    d = delete_post id (committed st) → store_step st d.

End App.

(** ** A small site to evaluate the views on *)

Module Demo.
Import Store Flask.

(** Stand-ins for the two [werkzeug.security] functions. *)
Definition demo_hash (p : string) : string := "hash$" +:+ p.
Definition demo_check (hash p : string) : bool :=
  bool_decide (hash = demo_hash p).

Definition alice : user_row := UserRow 1 "alice" (demo_hash "pw1").
Definition bob : user_row := UserRow 2 "bob" (demo_hash "pw2").

(** Two users and three posts, two of them created at the same time. *)
Definition site : database :=
  Database [alice; bob]
           [PostRow 1 1 100 "first" "hello";
            PostRow 2 2 250 "second" "";
            PostRow 3 1 100 "third" "again"].

(** A request with the given method and form fields, sent with the given
    session cookie to a server whose database file holds [site]. *)
Definition visit (m : http_method) (fields : list (string * string))
    (cookie : list (string * Z)) : state :=
  State (HttpRequest m (list_to_map fields)) site site 300
        (list_to_map cookie) [] None.

(** The same request as a view sees it once [g.user] holds [u]. *)
Definition visit_as (u : user_row) (m : http_method)
    (fields : list (string * string)) : state :=
  with_g_user (Some u) (visit m fields [("user_id", user_id u)]).

(** A view that always writes: it is used to watch the guard. *)
Definition noisy_view (_ : unit) : M response :=
  flash "the view ran";; mret (Body "done").

End Demo.

(** ** flaskr/db.py: which connection a request holds *)

Module Connection.

(** The application context as [get_db] and [close_db] use it: [g_db] is
    [g.db] ([None] when ['db' not in g]), and [connections] are the
    connections [sqlite3.connect] has returned so far, each open ([true])
    or closed.  A connection is named by its place in that list.  [Db]
    above says what a connection reads and writes; this says which
    connection it is, and when it is opened and closed. *)
Record context := Context {
  g_db : option nat;
  connections : list bool
}.

Definition get_db (c : context) : nat * context :=
  match g_db c with
  | None =>
      (* g.db = sqlite3.connect(...) *)
      let conn := length (connections c) in
      (conn, Context (Some conn) (connections c ++ [true]))
  | Some conn => (conn, c)
  end.

Definition close_db (c : context) : context :=
  (* db = g.pop('db', None), then db.close() if there was one *)
  match g_db c with
  | Some conn => Context None (<[conn := false]> (connections c))
  | None => Context None (connections c)
  end.

End Connection.

(** ** Proof tools *)

Import Store Flask Db.

(** Unfolds the monad and the context operations down to the state. *)
Ltac run :=
  repeat (cbv [mbind M_bind mret M_ret mthrow M_throw get_state put_state
               get_db execute commit close_db form_get session_get session_set
               session_clear flash render_template abort redirect
               try_except_IntegrityError Blog.g_user_id]; simpl).

(** ** Facts about the store *)

Section StoreFacts.
Import Store.

(** A key that occurs once in a table selects one row. *)
Lemma filter_key_unique {A : Type} (key : A → Z) (l : list A) (a : A) :
  NoDup (key <$> l) → a ∈ l →
  filter (λ x, key x = key a) l = [a].
Proof.
  induction l as [|x l IH]; intros Hnd Hin; [by apply elem_of_nil in Hin|].
  rewrite fmap_cons in Hnd. apply NoDup_cons in Hnd as [Hx Hnd].
  apply elem_of_cons in Hin as [->|Hin].
  - rewrite filter_cons_True by done. f_equal.
    destruct (filter _ l) as [|y l'] eqn:E; [done|].
    assert (Hy : y ∈ filter (λ x0, key x0 = key x) l) by (rewrite E; left).
    apply list_elem_of_filter in Hy as [Hk Hy].
    destruct Hx. rewrite <- Hk. by apply list_elem_of_fmap_2.
  - rewrite filter_cons_False; [by apply IH|].
    intros Hk. destruct Hx. rewrite Hk. by apply list_elem_of_fmap_2.
Qed.

Lemma elem_of_post_join_user (db : database) (v : post_view) :
  v ∈ post_join_user db ↔
  ∃ p u, p ∈ post db ∧ u ∈ user db ∧ author_id p = user_id u ∧ v = join_row p u.
Proof.
  unfold post_join_user. rewrite list_elem_of_bind. split.
  - intros (p & Hv & Hp). apply list_elem_of_fmap in Hv as (u & -> & Hu).
    apply list_elem_of_filter in Hu as [Ha Hu]. by exists p, u.
  - intros (p & u & Hp & Hu & Ha & ->). exists p. split; [|done].
    apply list_elem_of_fmap_2. by apply list_elem_of_filter.
Qed.

(** With the schema's constraints the join has one row per post, in the
    order of the post table, each carrying its author's name. *)
Lemma post_join_user_rows (db : database) :
  schema_ok db →
  Forall2 (λ v p, ∃ u, u ∈ user db ∧ user_id u = author_id p ∧ v = join_row p u)
          (post_join_user db) (post db).
Proof.
  intros [Hpk _ _ Hfk]. unfold post_join_user.
  induction (post db) as [|p ps IH]; [constructor|].
  rewrite bind_cons.
  destruct (Hfk p) as (u & Hu & Ha); [left|].
  rewrite <- Ha.
  rewrite (list_filter_iff _ (λ x, user_id x = user_id u)) by (intros; split; congruence).
  rewrite (filter_key_unique user_id _ u) by done. simpl.
  constructor; [by exists u|]. apply IH. intros q Hq. apply Hfk. by right.
Qed.

Lemma post_join_user_ids (db : database) :
  schema_ok db → v_id <$> post_join_user db = post_id <$> post db.
Proof.
  intros Hok. induction (post_join_user_rows db Hok) as [|v p l ps (u & _ & _ & ->) _ IH];
    [done|]. rewrite !fmap_cons, IH. done.
Qed.

Lemma select_post_by_id_None (id : Z) (db : database) :
  (∀ p, p ∈ post db → post_id p ≠ id) → select_post_by_id id db = None.
Proof.
  intros Hno. unfold select_post_by_id. apply head_None.
  destruct (filter _ _) as [|v l] eqn:E; [done|].
  assert (Hv : v ∈ filter (λ v, v_id v = id) (post_join_user db)) by (rewrite E; left).
  apply list_elem_of_filter in Hv as [Hid Hv].
  apply elem_of_post_join_user in Hv as (p & u & Hp & _ & _ & ->).
  by destruct (Hno p Hp).
Qed.

Lemma select_post_by_id_Some (db : database) (p : post_row) (u : user_row) :
  schema_ok db → p ∈ post db → u ∈ user db → user_id u = author_id p →
  select_post_by_id (post_id p) db = Some (join_row p u).
Proof.
  intros Hok Hp Hu Ha. unfold select_post_by_id.
  change (post_id p) with (v_id (join_row p u)).
  rewrite (filter_key_unique v_id _ (join_row p u)); [done| |].
  - rewrite post_join_user_ids by done. by destruct Hok.
  - apply elem_of_post_join_user. by exists p, u.
Qed.

(** The user table's own lookups. *)
Lemma select_user_by_id_elem (id : Z) (db : database) (u : user_row) :
  select_user_by_id id db = Some u → u ∈ user db ∧ user_id u = id.
Proof.
  unfold select_user_by_id. intros H. apply head_Some_elem_of in H.
  apply list_elem_of_filter in H. tauto.
Qed.

Lemma select_user_by_username_Some (db : database) (u : user_row) :
  NoDup (username <$> user db) → u ∈ user db →
  select_user_by_username (username u) db = Some u.
Proof.
  intros Hnd Hu. unfold select_user_by_username.
  induction (user db) as [|x l IH]; [by apply elem_of_nil in Hu|].
  rewrite fmap_cons in Hnd. apply NoDup_cons in Hnd as [Hx Hnd].
  apply elem_of_cons in Hu as [->|Hu].
  - by rewrite filter_cons_True.
  - rewrite filter_cons_False; [by apply IH|].
    intros Hk. destruct Hx. rewrite Hk. by apply list_elem_of_fmap_2.
Qed.

Lemma select_user_by_username_None (name : string) (db : database) :
  name ∉ username <$> user db → select_user_by_username name db = None.
Proof.
  intros Hno. unfold select_user_by_username. apply head_None.
  destruct (filter _ _) as [|v l] eqn:E; [done|].
  assert (Hv : v ∈ filter (λ u, username u = name) (user db)) by (rewrite E; left).
  apply list_elem_of_filter in Hv as [<- Hv]. destruct Hno.
  by apply list_elem_of_fmap_2.
Qed.

(** The id the store generates is not in the table. *)
Lemma next_id_bound (ids : list Z) (i : Z) : i ∈ ids → i < next_id ids.
Proof.
  unfold next_id. induction ids as [|j ids IH]; intros Hi.
  - by apply elem_of_nil in Hi.
  - apply elem_of_cons in Hi as [->|Hi]; simpl; [lia|].
    specialize (IH Hi). lia.
Qed.

Lemma next_id_fresh (ids : list Z) : next_id ids ∉ ids.
Proof. intros Hin. apply next_id_bound in Hin. lia. Qed.

(** [ORDER BY created DESC]: a permutation, newest first, and stable. *)

Lemma insert_desc_Permutation (v : post_view) (l : list post_view) :
  insert_desc v l ≡ₚ v :: l.
Proof.
  induction l as [|w l IH]; simpl; [done|].
  case_bool_decide; [done|]. rewrite IH. apply Permutation_swap.
Qed.

Lemma order_by_created_desc_Permutation (l : list post_view) :
  order_by_created_desc l ≡ₚ l.
Proof.
  induction l as [|v l IH]; simpl; [done|].
  rewrite insert_desc_Permutation. by f_equiv.
Qed.

Lemma insert_desc_sorted (v : post_view) (l : list post_view) :
  StronglySorted newer_first l → StronglySorted newer_first (insert_desc v l).
Proof.
  induction 1 as [|w l Hl IH Hw]; simpl.
  - repeat constructor.
  - case_bool_decide as Hc.
    + constructor; [by constructor|]. constructor; [done|].
      eapply Forall_impl; [exact Hw|]. unfold newer_first. intros; simpl in *; lia.
    + constructor; [done|]. rewrite insert_desc_Permutation.
      constructor; [unfold newer_first; lia|done].
Qed.

Lemma order_by_created_desc_sorted (l : list post_view) :
  StronglySorted newer_first (order_by_created_desc l).
Proof.
  induction l as [|v l IH]; simpl; [constructor|]. by apply insert_desc_sorted.
Qed.

Lemma insert_desc_stable (t : Z) (v : post_view) (l : list post_view) :
  filter (λ x, v_created x = t) (insert_desc v l)
  = filter (λ x, v_created x = t) (v :: l).
Proof.
  induction l as [|w l IH]; simpl; [done|].
  case_bool_decide as Hc; [done|].
  rewrite (filter_cons _ w), IH, !(filter_cons _ v), (filter_cons _ w).
  repeat case_decide; try done; lia.
Qed.

Lemma order_by_created_desc_stable (t : Z) (l : list post_view) :
  filter (λ x, v_created x = t) (order_by_created_desc l)
  = filter (λ x, v_created x = t) l.
Proof.
  induction l as [|v l IH]; simpl; [done|].
  rewrite insert_desc_stable, !filter_cons, IH. done.
Qed.

End StoreFacts.

(** ** Running a view *)

Section Requests.

Variable generate_password_hash : string → string.
Variable check_password_hash : string → string → bool.

Abbreviation wsgi_app :=
  (App.wsgi_app generate_password_hash check_password_hash).
Abbreviation view_function :=
  (App.view_function generate_password_hash check_password_hash).

Lemma load_logged_in_user_eq (st : state) :
  Auth.load_logged_in_user st
  = (Return (), with_g_user (match session st !! "user_id" with
                             | None => None
                             | Some id => select_user_by_id id (db st)
                             end) st).
Proof.
  unfold Auth.load_logged_in_user. run. by destruct (session st !! "user_id").
Qed.

Lemma resolve_current_user_eq (st : state) :
  App.resolve_current_user st
  = match session st !! "user_id" with
    | None => None
    | Some id => select_user_by_id id (committed st)
    end.
Proof. unfold App.resolve_current_user. by rewrite load_logged_in_user_eq. Qed.

Lemma resolve_current_user_elem (st : state) (u : user_row) :
  App.resolve_current_user st = Some u → u ∈ user (committed st).
Proof.
  rewrite resolve_current_user_eq. destruct (session st !! "user_id"); [|done].
  intros Hu. by apply select_user_by_id_elem in Hu as [? _].
Qed.

(** The methods that reach a view, route by route. *)
Lemma view_methods_eq (e : App.endpoint) :
  App.view_methods e
  = match e with
    | App.ep_hello | App.ep_logout | App.ep_index => [GET; HEAD]
    | App.ep_delete _ => [POST]
    | _ => [GET; POST; HEAD]
    end.
Proof. by destruct e. Qed.

Lemma elem_of_view_methods (e : App.endpoint) (m : http_method) :
  m ∈ App.view_methods e ↔
  match e, m with
  | App.ep_delete _, POST => True
  | App.ep_delete _, _ => False
  | (App.ep_hello | App.ep_logout | App.ep_index), (GET | HEAD) => True
  | (App.ep_hello | App.ep_logout | App.ep_index), _ => False
  | _, (GET | HEAD | POST) => True
  | _, _ => False
  end.
Proof.
  rewrite view_methods_eq.
  destruct e, m; rewrite ?elem_of_cons, ?elem_of_nil; intuition congruence.
Qed.

Lemma methods_view_methods (e : App.endpoint) (m : http_method) :
  m ∈ App.methods e → m ≠ OPTIONS ∧ m ∈ App.view_methods e.
Proof.
  rewrite elem_of_view_methods.
  destruct e, m; simpl; rewrite ?elem_of_cons, ?elem_of_nil; intuition congruence.
Qed.

(** A request that is not an OPTIONS and whose method the route takes
    reaches the view, with the current user in [g.user] and the connection
    on the database file. *)
Lemma wsgi_app_reaches_view (e : App.endpoint) (st : state) :
  method (request st) ≠ OPTIONS →
  method (request st) ∈ App.view_methods e →
  wsgi_app e st
  = let '(r, st1) :=
      view_function e (with_g_user (App.resolve_current_user st)
                                   (App.request_context st)) in
    (match r with Return x => x | Raise ex => handle_exception ex end,
     App.request_context st1).
Proof.
  intros Ho Hm.
  unfold App.wsgi_app, App.full_dispatch_request, App.resolve_current_user.
  run. rewrite load_logged_in_user_eq. simpl.
  rewrite bool_decide_false, bool_decide_true by done.
  by destruct (view_function e _) as [[]].
Qed.

Lemma wsgi_app_view (e : App.endpoint) (st : state) :
  method (request st) ∈ App.methods e →
  wsgi_app e st
  = let '(r, st1) :=
      view_function e (with_g_user (App.resolve_current_user st)
                                   (App.request_context st)) in
    (match r with Return x => x | Raise ex => handle_exception ex end,
     App.request_context st1).
Proof.
  intros Hm. apply methods_view_methods in Hm as [Ho Hm].
  by apply wsgi_app_reaches_view.
Qed.

(** Any other request does not reach the view: OPTIONS is answered by
    Flask, the rest with 405.  Nothing changes. *)
Lemma wsgi_app_no_view (e : App.endpoint) (st : state) :
  method (request st) = OPTIONS ∨ method (request st) ∉ App.view_methods e →
  wsgi_app e st
  = (if decide (method (request st) = OPTIONS) then Options
     else Error 405 None, App.request_context st).
Proof.
  intros Hm.
  unfold App.wsgi_app, App.full_dispatch_request. run.
  rewrite load_logged_in_user_eq. simpl.
  destruct (decide (method (request st) = OPTIONS)) as [Ho|Ho].
  - by rewrite bool_decide_true.
  - rewrite bool_decide_false by done. destruct Hm as [Hm|Hm]; [done|].
    by rewrite bool_decide_false.
Qed.

(** *** auth *)

(** The two ways a request is answered. *)
Lemma wsgi_app_cases (e : App.endpoint) (st : state) :
  wsgi_app e st
  = (if decide (method (request st) = OPTIONS) then Options
     else Error 405 None, App.request_context st) ∨
  method (request st) ≠ OPTIONS ∧
  method (request st) ∈ App.view_methods e ∧
  wsgi_app e st
  = let '(r, st1) :=
      view_function e (with_g_user (App.resolve_current_user st)
                                   (App.request_context st)) in
    (match r with Return x => x | Raise ex => handle_exception ex end,
     App.request_context st1).
Proof.
  destruct (decide (method (request st) = OPTIONS)) as [Ho|Ho].
  { left. rewrite wsgi_app_no_view by (by left). by rewrite decide_True. }
  destruct (decide (method (request st) ∈ App.view_methods e)) as [Hm|Hm].
  - right. by rewrite wsgi_app_reaches_view.
  - left. rewrite wsgi_app_no_view by (by right). by rewrite decide_False.
Qed.

Lemma register_get (st : state) :
  method (request st) ≠ POST →
  Auth.register generate_password_hash st
  = (Return (Page "auth/register.html" NoArgs), st).
Proof.
  intros Hm. unfold Auth.register. run. by rewrite bool_decide_false.
Qed.

(** [register] on a POST: the two form lookups come first. *)
Lemma register_post (st : state) :
  method (request st) = POST →
  Auth.register generate_password_hash st
  = match form (request st) !! "username", form (request st) !! "password" with
    | None, _ => (Raise (BadRequestKeyError "username"), st)
    | Some _, None => (Raise (BadRequestKeyError "password"), st)
    | Some name, Some pw =>
        if decide (name = "") then
          (Return (Page "auth/register.html" NoArgs),
           with_flashes (flashes st ++ ["Username is required."]) st)
        else if decide (pw = "") then
          (Return (Page "auth/register.html" NoArgs),
           with_flashes (flashes st ++ ["Password is required."]) st)
        else
          match insert_user name (generate_password_hash pw) (db st) with
          | None =>
              (Return (Page "auth/register.html" NoArgs),
               with_flashes
                 (flashes st ++ ["User " +:+ name +:+ " is already registered."])
                 st)
          | Some d =>
              (Return (Redirect 302 "/auth/login"),
               with_committed d (with_db d st))
          end
    end.
Proof.
  intros Hm. unfold Auth.register. run. rewrite Hm, bool_decide_true by done.
  destruct (form (request st) !! "username") as [name|]; [|done]. run.
  destruct (form (request st) !! "password") as [pw|]; [|done]. run.
  destruct (decide (name = "")) as [->|Hne]; [done|].
  rewrite (bool_decide_false (name = "")) by done.
  destruct (decide (pw = "")) as [->|Hpe]; [done|].
  rewrite (bool_decide_false (pw = "")) by done. run.
  by destruct (insert_user _ _ _).
Qed.

(** The whole registration request, for a POST that carries both fields. *)
Lemma register_request (st : state) (name pw : string) :
  method (request st) = POST →
  form (request st) !! "username" = Some name →
  form (request st) !! "password" = Some pw →
  wsgi_app App.ep_register st
  = if decide (name = "") then
      (Page "auth/register.html" NoArgs,
       with_flashes (flashes st ++ ["Username is required."])
                    (App.request_context st))
    else if decide (pw = "") then
      (Page "auth/register.html" NoArgs,
       with_flashes (flashes st ++ ["Password is required."])
                    (App.request_context st))
    else
      match insert_user name (generate_password_hash pw) (committed st) with
      | None =>
          (Page "auth/register.html" NoArgs,
           with_flashes
             (flashes st ++ ["User " +:+ name +:+ " is already registered."])
             (App.request_context st))
      | Some d =>
          (Redirect 302 "/auth/login",
           with_committed d (with_db d (App.request_context st)))
      end.
Proof.
  intros Hm Hn Hp. rewrite wsgi_app_view by (rewrite Hm; set_solver).
  simpl. rewrite register_post by done. simpl. rewrite Hn, Hp.
  repeat case_decide; try done. simpl. by destruct (insert_user _ _ _).
Qed.

Lemma login_post (st : state) :
  method (request st) = POST →
  Auth.login check_password_hash st
  = match form (request st) !! "username", form (request st) !! "password" with
    | None, _ => (Raise (BadRequestKeyError "username"), st)
    | Some _, None => (Raise (BadRequestKeyError "password"), st)
    | Some name, Some pw =>
        match select_user_by_username name (db st) with
        | None =>
            (Return (Page "auth/login.html" NoArgs),
             with_flashes (flashes st ++ ["Incorrect username."]) st)
        | Some u =>
            if check_password_hash (password u) pw then
              (Return (Redirect 302 "/"),
               with_session (<["user_id" := user_id u]> ∅)
                            (with_flashes [] st))
            else
              (Return (Page "auth/login.html" NoArgs),
               with_flashes (flashes st ++ ["Incorrect password."]) st)
        end
    end.
Proof.
  intros Hm. unfold Auth.login. run. rewrite Hm, bool_decide_true by done.
  destruct (form (request st) !! "username") as [name|]; [|done]. run.
  destruct (form (request st) !! "password") as [pw|]; [|done]. run.
  destruct (select_user_by_username name (db st)) as [u|]; [|done].
  by destruct (check_password_hash (password u) pw).
Qed.

Lemma login_required_eq {K : Type} (view : K → M response) (kwargs : K)
    (st : state) :
  Auth.login_required view kwargs st
  = match g_user st with
    | None => (Return (Redirect 302 "/auth/login"), st)
    | Some _ => view kwargs st
    end.
Proof. unfold Auth.login_required. run. by destruct (g_user st). Qed.

(** *** blog *)

Lemma get_post_eq (id : Z) (st : state) :
  Blog.get_post id true st
  = if decide (bindable_post_id id (db st)) then
      match select_post_by_id id (db st) with
      | None =>
          (Raise (HTTPException 404
                    (Some ("Post id " +:+ pretty id +:+ " doesn't exist."))),
           st)
      | Some v =>
          match g_user st with
          | None => (Raise TypeError, st)
          | Some u =>
              if bool_decide (v_author_id v ≠ user_id u)
              then (Raise (HTTPException 403 None), st)
              else (Return v, st)
          end
      end
    else (Raise OverflowError, st).
Proof.
  unfold Blog.get_post. run.
  destruct (decide (bindable_post_id id (db st))) as [Hb|Hb];
    [rewrite bool_decide_true by done|by rewrite bool_decide_false].
  run. destruct (select_post_by_id id (db st)); [|done].
  run. destruct (g_user st); [|done]. run. by case_bool_decide.
Qed.

(** The id of a post of the table can be bound, and so can every integer
    of 64 bits. *)
Lemma bindable_post_id_elem (db0 : database) (p : post_row) :
  p ∈ post db0 → bindable_post_id (post_id p) db0.
Proof. intros Hp. left. by apply list_elem_of_fmap_2. Qed.

(** On a table whose ids are integers SQLite has stored, what can be bound
    is what fits 64 bits. *)
Lemma bindable_post_id_sqlite (id : Z) (db0 : database) :
  (∀ p, p ∈ post db0 → sqlite_integer (post_id p)) →
  bindable_post_id id db0 ↔ sqlite_integer id.
Proof.
  intros Hs. split; [|by right].
  intros [(p & -> & Hp)%list_elem_of_fmap|?]; [by apply Hs|done].
Qed.

(** For an id no post has, binding succeeds exactly when the id fits 64
    bits. *)
Lemma bindable_absent (id : Z) (db0 : database) :
  (∀ p, p ∈ post db0 → post_id p ≠ id) →
  bindable_post_id id db0 ↔ sqlite_integer id.
Proof.
  intros Hno. split; [|by right].
  intros [(p & Hid & Hp)%list_elem_of_fmap|?]; [|done].
  by destruct (Hno p Hp).
Qed.

(** [get_post] for an id that no post has, whether or not the author is
    checked. *)
Lemma get_post_absent (id : Z) (check_author : bool) (st : state) :
  (∀ p, p ∈ post (db st) → post_id p ≠ id) →
  Blog.get_post id check_author st
  = if decide (sqlite_integer id) then
      (Raise (HTTPException 404
                (Some ("Post id " +:+ pretty id +:+ " doesn't exist."))), st)
    else (Raise OverflowError, st).
Proof.
  intros Hno. unfold Blog.get_post. run.
  destruct (decide (sqlite_integer id)) as [Hi|Hi].
  - rewrite bool_decide_true by (by apply bindable_absent). run.
    by rewrite select_post_by_id_None.
  - rewrite bool_decide_false; [done|]. by rewrite bindable_absent.
Qed.

Lemma get_post_state (id : Z) (st : state) :
  (Blog.get_post id true st).2 = st.
Proof. rewrite get_post_eq. by repeat case_match. Qed.

Lemma get_post_author (db0 : database) (p : post_row) (u : user_row)
    (st : state) :
  db st = db0 → g_user st = Some u →
  schema_ok db0 → p ∈ post db0 → u ∈ user db0 → author_id p = user_id u →
  Blog.get_post (post_id p) true st = (Return (join_row p u), st).
Proof.
  intros Hdb Hg Hok Hp Hu Ha. rewrite get_post_eq, Hdb, Hg.
  rewrite decide_True by (by apply bindable_post_id_elem).
  rewrite (select_post_by_id_Some _ p u) by done. simpl.
  rewrite bool_decide_false; [done|]. intros Hne. by apply Hne.
Qed.

Lemma create_post_eq (st : state) (u : user_row) :
  g_user st = Some u →
  method (request st) = POST →
  Blog.create () st
  = match form (request st) !! "title", form (request st) !! "body" with
    | None, _ => (Raise (BadRequestKeyError "title"), st)
    | Some _, None => (Raise (BadRequestKeyError "body"), st)
    | Some ttl, Some bdy =>
        if decide (ttl = "") then
          (Return (Page "blog/create.html" NoArgs), st)
        else
          let d := insert_post ttl bdy (user_id u) (now st) (db st) in
          (Return (Redirect 302 "/"), with_committed d (with_db d st))
    end.
Proof.
  intros Hg Hm. unfold Blog.create. rewrite login_required_eq, Hg.
  run. rewrite Hm, bool_decide_true by done.
  destruct (form (request st) !! "title") as [ttl|]; [|done]. run.
  destruct (form (request st) !! "body") as [bdy|]; [|done]. run.
  destruct (decide (ttl = "")) as [->|]; [done|].
  rewrite bool_decide_false by done. run. by rewrite Hg.
Qed.

(** [update] once the guard and [get_post] have let a POST through. *)
Lemma update_post_eq (id : Z) (st : state) (u : user_row) (v : post_view) :
  g_user st = Some u →
  Blog.get_post id true st = (Return v, st) →
  method (request st) = POST →
  Blog.update id st
  = match form (request st) !! "title", form (request st) !! "body" with
    | None, _ => (Raise (BadRequestKeyError "title"), st)
    | Some _, None => (Raise (BadRequestKeyError "body"), st)
    | Some ttl, Some bdy =>
        if decide (ttl = "") then
          (Return (Page "blog/update.html" (Post v)),
           with_flashes (flashes st ++ ["Title is required."]) st)
        else
          let d := update_post ttl bdy id (db st) in
          (Return (Redirect 302 "/"), with_committed d (with_db d st))
    end.
Proof.
  intros Hg Hv Hm. unfold Blog.update. rewrite login_required_eq, Hg.
  run. rewrite Hv. run. rewrite Hm, bool_decide_true by done.
  destruct (form (request st) !! "title") as [ttl|]; [|done]. run.
  destruct (form (request st) !! "body") as [bdy|]; [|done]. run.
  destruct (decide (ttl = "")) as [->|]; [done|].
  by rewrite bool_decide_false.
Qed.

(** Every other way through [update]: the guard redirects, [get_post]
    raises, or the request is not a POST; none of them writes. *)
Lemma update_cases (id : Z) (st : state) :
  (g_user st = None ∧
   Blog.update id st = (Return (Redirect 302 "/auth/login"), st)) ∨
  (∃ e, Blog.get_post id true st = (Raise e, st) ∧
        Blog.update id st = (Raise e, st)) ∨
  (∃ v, Blog.get_post id true st = (Return v, st) ∧
        method (request st) ≠ POST ∧
        Blog.update id st = (Return (Page "blog/update.html" (Post v)), st)) ∨
  (∃ u v, g_user st = Some u ∧ Blog.get_post id true st = (Return v, st) ∧
          method (request st) = POST).
Proof.
  pose proof (get_post_state id st) as Hst.
  destruct (g_user st) as [u|] eqn:Hg; last first.
  { left. split; [done|]. unfold Blog.update. by rewrite login_required_eq, Hg. }
  right. destruct (Blog.get_post id true st) as [[v|e] st1] eqn:Hgp;
    simpl in Hst; subst st1.
  - right. destruct (decide (method (request st) = POST)) as [Hm|Hm].
    + right. by exists u, v.
    + left. exists v. split; [done|]. split; [done|].
      unfold Blog.update. rewrite login_required_eq, Hg. run. rewrite Hgp. run.
      by rewrite bool_decide_false.
  - left. exists e. split; [done|].
    unfold Blog.update. rewrite login_required_eq, Hg. run. by rewrite Hgp.
Qed.

(** *** What one request can do to the database file *)

Lemma view_function_store_step (e : App.endpoint) (st : state) :
  db st = committed st →
  (∀ u, g_user st = Some u → u ∈ user (committed st)) →
  App.store_step st (committed (view_function e st).2).
Proof.
  intros Hdb Hg.
  destruct e; simpl;
    unfold App.hello, Auth.register, Auth.login, Auth.logout, Blog.index,
      Blog.create, Blog.update, Blog.delete, Auth.login_required, Blog.get_post,
      url_for;
    run; rewrite ?Hdb;
    repeat (case_match; run; simplify_eq/=; rewrite ?Hdb);
    try (by apply App.step_none).
  all: eauto using App.store_step.
Qed.

Lemma store_step_schema_ok (st : state) (d : database) :
  schema_ok (committed st) → App.store_step st d → schema_ok d.
Proof.
  intros [Hu Hn Hp Hfk]
         [->| name hash Hi | u ttl bdy Hin -> | ttl bdy id -> | id ->].
  - done.
  - unfold insert_user in Hi. case_bool_decide as Hname; simplify_eq/=.
    split; simpl; rewrite ?fmap_app; simpl.
    + apply NoDup_app. split; [done|]. split; [|apply NoDup_singleton].
      intros i Hi ->%list_elem_of_singleton. by apply next_id_fresh in Hi.
    + apply NoDup_app. split; [done|]. split; [|apply NoDup_singleton].
      by intros i Hi ->%list_elem_of_singleton.
    + done.
    + intros p Hpin. destruct (Hfk p Hpin) as (u & ? & ?). exists u.
      split; [|done]. apply elem_of_app. by left.
  - split; simpl; rewrite ?fmap_app; simpl; try done.
    + apply NoDup_app. split; [done|]. split; [|apply NoDup_singleton].
      intros i Hi ->%list_elem_of_singleton. by apply next_id_fresh in Hi.
    + intros p [Hpin| ->%list_elem_of_singleton]%elem_of_app; [by apply Hfk|].
      by exists u.
  - split; simpl; try done.
    + rewrite <- list_fmap_compose.
      erewrite list_fmap_ext; [exact Hp|]. intros i p _. simpl.
      by case_bool_decide.
    + intros p (q & -> & Hq)%list_elem_of_fmap.
      destruct (Hfk q Hq) as (u & ? & ?). exists u. split; [done|].
      by case_bool_decide.
  - split; simpl; try done.
    + eapply sublist_NoDup; [exact Hp|]. apply fmap_sublist, sublist_filter.
    + intros p [_ Hq]%list_elem_of_filter. by apply Hfk.
Qed.

(** X16: every request leaves the database file within its schema, so the
    schema holds in every state the application reaches from one where it
    holds. *)
Lemma wsgi_app_schema_ok (e : App.endpoint) (st : state) :
  schema_ok (committed st) → schema_ok (committed (wsgi_app e st).2).
Proof.
  intros Hok. apply (store_step_schema_ok st); [done|].
  unfold App.wsgi_app, App.full_dispatch_request. run.
  rewrite load_logged_in_user_eq. simpl.
  set (stv := with_g_user _ _).
  assert (Hs : App.store_step stv (committed (view_function e stv).2)).
  { apply view_function_store_step; [done|]. simpl.
    destruct (session st !! "user_id"); [|done].
    intros u Hu. by apply select_user_by_id_elem in Hu as [? _]. }
  repeat case_bool_decide; try (by apply App.step_none).
  destruct (view_function e stv) as [[] st1]; simpl in *;
    destruct Hs; eauto using App.store_step.
Qed.

(** ** The claims *)

(** C1, what the code does: [get_post(id, check_author=True)], called for a
    current user [u] that [load_logged_in_user] found in the user table of
    a store within its schema.  When no post has the id it aborts with 404
    and the message naming [id] if the id fits SQLite's 64 bits, and
    otherwise raises [OverflowError], which no view catches.  It aborts
    with 403 when a post has that id and its [author_id] is not [u]'s id;
    it returns the post, joined with [u]'s username, when [u] is the
    author.  The state is the same afterwards. *)
Theorem get_post_spec (id : Z) (u : user_row) (st : state) :
  schema_ok (db st) → g_user st = Some u → u ∈ user (db st) →
  ((∀ p, p ∈ post (db st) → post_id p ≠ id) →
     Blog.get_post id true st
     = if decide (sqlite_integer id) then
         (Raise (HTTPException 404
                   (Some ("Post id " +:+ pretty id +:+ " doesn't exist."))), st)
       else (Raise OverflowError, st)) ∧
  (∀ p, p ∈ post (db st) → post_id p = id → author_id p ≠ user_id u →
     Blog.get_post id true st = (Raise (HTTPException 403 None), st)) ∧
  (∀ p, p ∈ post (db st) → post_id p = id → author_id p = user_id u →
     Blog.get_post id true st = (Return (join_row p u), st)).
Proof.
  intros Hok Hg Hu. split; [|split].
  - intros Hno. by apply get_post_absent.
  - intros p Hp <- Hne. rewrite get_post_eq, Hg.
    rewrite decide_True by (by apply bindable_post_id_elem).
    destruct (author_fk _ Hok p Hp) as (a & Ha & Hid).
    rewrite (select_post_by_id_Some _ p a) by done. simpl.
    by rewrite bool_decide_true.
  - intros p Hp <- He. by apply (get_post_author (db st)).
Qed.

(** C2: a view wrapped by [login_required], whatever the view is.  When
    [g.user] is [None] the result is the redirect to [/auth/login] and the
    state is untouched: nothing of the view shows in either, so it was not
    run.  When [g.user] holds a user the result and the state are those of
    the view on the same arguments. *)
Theorem login_required_guard {K : Type} (view : K → M response) (kwargs : K)
    (st : state) :
  (g_user st = None →
   Auth.login_required view kwargs st
   = (Return (Redirect 302 "/auth/login"), st)) ∧
  (∀ u, g_user st = Some u →
        Auth.login_required view kwargs st = view kwargs st).
Proof.
  rewrite login_required_eq. split.
  - by intros ->.
  - by intros u ->.
Qed.

(** C3, as amended: a registration POST whose username is already in the
    user table gets the form again, with one message flashed, and leaves
    the database file and the session as they were.  The message is the
    duplicate-username one when both fields are non-empty; an empty
    username or password is reported first. *)
Theorem register_duplicate_username (st : state) (name pw : string) :
  method (request st) = POST →
  form (request st) !! "username" = Some name →
  form (request st) !! "password" = Some pw →
  name ∈ username <$> user (committed st) →
  ∃ st',
    wsgi_app App.ep_register st = (Page "auth/register.html" NoArgs, st') ∧
    committed st' = committed st ∧
    session st' = session st ∧
    flashes st'
    = flashes st ++
      [if decide (name = "") then "Username is required."
       else if decide (pw = "") then "Password is required."
       else "User " +:+ name +:+ " is already registered."].
Proof.
  intros Hm Hn Hp Hin. rewrite (register_request st name pw) by done.
  unfold insert_user. rewrite bool_decide_true by done.
  repeat case_decide; by eexists.
Qed.

(** C4: a registration POST that carries both fields.  An empty username
    is reported first; otherwise an empty password; otherwise a username
    that is taken; each of these flashes its message, shows the form again
    and leaves the database file as it was.  Otherwise the response is the
    redirect to the login page and the user table gains one row, with a
    new id, the username and the hash of the password.  The session is the
    same in all four cases, and so is the post table. *)
Theorem register_validation_order (st : state) (name pw : string) :
  method (request st) = POST →
  form (request st) !! "username" = Some name →
  form (request st) !! "password" = Some pw →
  ∃ resp st',
    wsgi_app App.ep_register st = (resp, st') ∧
    session st' = session st ∧
    post (committed st') = post (committed st) ∧
    if decide (name = "") then
      resp = Page "auth/register.html" NoArgs ∧
      flashes st' = flashes st ++ ["Username is required."] ∧
      committed st' = committed st
    else if decide (pw = "") then
      resp = Page "auth/register.html" NoArgs ∧
      flashes st' = flashes st ++ ["Password is required."] ∧
      committed st' = committed st
    else if decide (name ∈ username <$> user (committed st)) then
      resp = Page "auth/register.html" NoArgs ∧
      flashes st'
      = flashes st ++ ["User " +:+ name +:+ " is already registered."] ∧
      committed st' = committed st
    else
      resp = Redirect 302 "/auth/login" ∧
      flashes st' = flashes st ∧
      user (committed st')
      = user (committed st)
        ++ [UserRow (next_id (user_id <$> user (committed st))) name
                    (generate_password_hash pw)].
Proof.
  intros Hm Hn Hp. rewrite (register_request st name pw) by done.
  unfold insert_user.
  destruct (decide (name = "")); [by eexists _, _|].
  destruct (decide (pw = "")); [by eexists _, _|].
  destruct (decide (name ∈ _)).
  - rewrite bool_decide_true by done. by eexists _, _.
  - rewrite bool_decide_false by done. by eexists _, _.
Qed.

(** C5, as amended: a login POST for a username in the user table (of a
    store within its schema) with a password that does not verify against
    the stored hash gets the login form again with "Incorrect password."
    flashed; the session and the database file are as they were, so the
    user the next request is served for is the one it was before the
    attempt, and it is none when the session held no [user_id]. *)
Theorem login_bad_password (st : state) (name pw : string) (u : user_row) :
  method (request st) = POST →
  form (request st) !! "username" = Some name →
  form (request st) !! "password" = Some pw →
  schema_ok (committed st) →
  u ∈ user (committed st) → username u = name →
  check_password_hash (password u) pw = false →
  ∃ st',
    wsgi_app App.ep_login st = (Page "auth/login.html" NoArgs, st') ∧
    flashes st' = flashes st ++ ["Incorrect password."] ∧
    session st' = session st ∧
    committed st' = committed st ∧
    App.resolve_current_user st' = App.resolve_current_user st ∧
    (session st !! "user_id" = None → App.resolve_current_user st' = None).
Proof.
  intros Hm Hn Hp Hok Hu <- Hc. rewrite wsgi_app_view by (rewrite Hm; set_solver).
  simpl. rewrite login_post by done. simpl. rewrite Hn, Hp.
  rewrite select_user_by_username_Some by (done || by destruct Hok).
  rewrite Hc. eexists. split; [done|]. rewrite !resolve_current_user_eq. simpl.
  repeat split; try done. by intros ->.
Qed.

(** C6: an update request that succeeded (it was answered with the
    redirect to the index) carried a title and a body, and the database
    file after it has the same user table and, row by row in the same
    order, the same posts: each keeps its id, created and author_id; a row
    with another id is identical; a row with the updated id has the title
    and body of the form.  Session and flash queue are untouched. *)
Theorem update_frame (id : Z) (st st' : state) :
  wsgi_app (App.ep_update id) st = (Redirect 302 "/", st') →
  ∃ ttl bdy,
    form (request st) !! "title" = Some ttl ∧
    form (request st) !! "body" = Some bdy ∧
    user (committed st') = user (committed st) ∧
    Forall2 (λ p p',
               post_id p' = post_id p ∧ created p' = created p ∧
               author_id p' = author_id p ∧
               if decide (post_id p = id) then title p' = ttl ∧ body p' = bdy
               else p' = p)
            (post (committed st)) (post (committed st')) ∧
    session st' = session st ∧ flashes st' = flashes st.
Proof.
  intros H.
  destruct (wsgi_app_cases (App.ep_update id) st) as [E|(_ & _ & E)];
    rewrite E in H; [by case_decide; simplify_eq|clear E].
  simpl in H. set (stv := with_g_user _ _) in H.
  destruct (update_cases id stv)
    as [[_ E]|[(e & _ & E)|[(v & _ & _ & E)|(u & v & Hg & Hv & Hp)]]].
  { rewrite E in H. by simplify_eq/=. }
  { rewrite E in H. destruct e; by simplify_eq/=. }
  { rewrite E in H. by simplify_eq/=. }
  rewrite (update_post_eq id stv u v) in H by done. simpl in H.
  destruct (form (request st) !! "title") as [ttl|]; [|by simplify_eq/=].
  destruct (form (request st) !! "body") as [bdy|]; [|by simplify_eq/=].
  destruct (decide (ttl = "")); simplify_eq/=.
  exists ttl, bdy. repeat split; try done.
  induction (post (committed st)) as [|p ps IH]; simpl; constructor; [|done].
  case_bool_decide; by rewrite ?decide_True, ?decide_False by done.
Qed.

(** C7, as amended: a registration POST with a non-empty username that is
    not in the user table and a non-empty password is answered with a
    redirect to [/auth/login] whose status is 302, the one [redirect]
    gives when it is called without a code. *)
Theorem register_success_redirect (st : state) (name pw : string) :
  method (request st) = POST →
  form (request st) !! "username" = Some name →
  form (request st) !! "password" = Some pw →
  name ≠ "" → pw ≠ "" →
  name ∉ username <$> user (committed st) →
  (wsgi_app App.ep_register st).1 = Redirect 302 "/auth/login".
Proof.
  intros Hm Hn Hp Hne Hpe Hin. rewrite (register_request st name pw) by done.
  unfold insert_user. rewrite bool_decide_false by done.
  by rewrite !decide_False by done.
Qed.

(** C8: on a store within its schema the index page is rendered with the
    rows [rows], and there is a list [joined] with one row per post, in
    the order of the post table, each row being its post joined with the
    user whose id is the post's author_id, such that [rows] is a
    permutation of [joined], is ordered by [created] with the newest
    first, and lists the rows of any one [created] value in the order
    [joined] has them.  The database file is untouched. *)
Theorem index_lists_posts (st : state) :
  method (request st) = GET →
  schema_ok (committed st) →
  ∃ rows joined st',
    wsgi_app App.ep_index st = (Page "blog/index.html" (Posts rows), st') ∧
    committed st' = committed st ∧
    Forall2 (λ v p, ∃ u, u ∈ user (committed st) ∧ user_id u = author_id p ∧
                         v = join_row p u)
            joined (post (committed st)) ∧
    rows ≡ₚ joined ∧
    StronglySorted newer_first rows ∧
    ∀ t, filter (λ v, v_created v = t) rows
         = filter (λ v, v_created v = t) joined.
Proof.
  intros Hm Hok. rewrite wsgi_app_view by (rewrite Hm; set_solver).
  exists (select_posts (committed st)), (post_join_user (committed st)).
  eexists. split; [done|]. simpl. split; [done|].
  split; [by apply post_join_user_rows|].
  split; [apply order_by_created_desc_Permutation|].
  split; [apply order_by_created_desc_sorted|].
  intros t. apply order_by_created_desc_stable.
Qed.

(** C9, what the code does: a POST by a logged-in user with an empty title
    writes nothing, on [create] and on [update] of one of the user's own
    posts alike, and both show their form again.  [update] flashes "Title
    is required."; [create] flashes nothing: its flash queue is the one it
    started with. *)
Theorem empty_title_writes_nothing (st : state) (u : user_row) (bdy : string) :
  method (request st) = POST →
  App.resolve_current_user st = Some u →
  form (request st) !! "title" = Some "" →
  form (request st) !! "body" = Some bdy →
  (∃ st',
     wsgi_app App.ep_create st = (Page "blog/create.html" NoArgs, st') ∧
     committed st' = committed st ∧
     flashes st' = flashes st) ∧
  (∀ p, schema_ok (committed st) → p ∈ post (committed st) →
        author_id p = user_id u →
        ∃ st',
          wsgi_app (App.ep_update (post_id p)) st
          = (Page "blog/update.html" (Post (join_row p u)), st') ∧
          committed st' = committed st ∧
          flashes st' = flashes st ++ ["Title is required."]).
Proof.
  intros Hm Hu Ht Hb. split.
  - rewrite wsgi_app_view by (rewrite Hm; set_solver). simpl.
    rewrite (create_post_eq _ u) by (done || by rewrite Hu). simpl.
    rewrite Ht, Hb. simpl. by eexists.
  - intros p Hok Hp Ha.
    rewrite wsgi_app_view by (rewrite Hm; set_solver). simpl. rewrite Hu.
    set (stv := with_g_user _ _).
    assert (Hgp : Blog.get_post (post_id p) true stv
                  = (Return (join_row p u), stv))
      by (apply (get_post_author (committed st));
          auto using resolve_current_user_elem).
    rewrite (update_post_eq _ stv u (join_row p u)) by done. simpl.
    rewrite Ht, Hb. simpl. by eexists.
Qed.

(** C10: on a POST whose form has no [username] key, or no [password] key,
    [register] and [login] raise the lookup error for the first missing
    key with the state untouched, and the request is answered 400 with the
    database file, session and flash queue as they were.  And whenever a
    registration request flashed "Username is required." (or "Password is
    required."), the form had that key, with the empty string. *)
Theorem missing_form_key (st : state) :
  (method (request st) = POST →
   form (request st) !! "username" = None ∨
   form (request st) !! "password" = None →
   ∃ key,
     Auth.register generate_password_hash st
     = (Raise (BadRequestKeyError key), st) ∧
     Auth.login check_password_hash st
     = (Raise (BadRequestKeyError key), st) ∧
     ∀ e, e = App.ep_register ∨ e = App.ep_login →
          wsgi_app e st = (Error 400 None, App.request_context st)) ∧
  (∀ resp st',
     wsgi_app App.ep_register st = (resp, st') →
     (flashes st' = flashes st ++ ["Username is required."] →
      form (request st) !! "username" = Some "") ∧
     (flashes st' = flashes st ++ ["Password is required."] →
      form (request st) !! "password" = Some "")).
Proof.
  split.
  - intros Hm Hk.
    set (key := match form (request st) !! "username" with
                | None => "username" | Some _ => "password" end).
    assert (Hr : ∀ s, request s = request st →
                      Auth.register generate_password_hash s
                      = (Raise (BadRequestKeyError key), s)).
    { intros s Hs. rewrite register_post by (by rewrite Hs). rewrite Hs.
      subst key. destruct Hk as [Hk|Hk]; rewrite Hk; [done|].
      by destruct (form (request st) !! "username"). }
    assert (Hl : ∀ s, request s = request st →
                      Auth.login check_password_hash s
                      = (Raise (BadRequestKeyError key), s)).
    { intros s Hs. rewrite login_post by (by rewrite Hs). rewrite Hs.
      subst key. destruct Hk as [Hk|Hk]; rewrite Hk; [done|].
      by destruct (form (request st) !! "username"). }
    exists key. split; [by apply Hr|]. split; [by apply Hl|].
    intros e He.
    rewrite wsgi_app_view
      by (destruct He as [He|He]; rewrite He, Hm; repeat constructor).
    destruct He as [He|He]; rewrite He; simpl; by rewrite ?Hr, ?Hl.
  - intros resp st' H.
    assert (Hnil : ∀ m : string, flashes st ≠ flashes st ++ [m]).
    { intros m Hf. apply (f_equal length) in Hf. rewrite length_app in Hf.
      simpl in Hf. lia. }
    destruct (wsgi_app_cases App.ep_register st) as [E|(_ & _ & E)].
    { rewrite E in H. simplify_eq/=.
      split; intros Hf; by destruct (Hnil _ Hf). }
    destruct (decide (method (request st) = POST)) as [Hm|Hm]; last first.
    { rewrite E in H. simpl in H.
      rewrite register_get in H by done. simplify_eq/=.
      split; intros Hf; by destruct (Hnil _ Hf). }
    destruct (form (request st) !! "username") as [name|] eqn:Hn; last first.
    { rewrite E in H. simpl in H.
      rewrite register_post in H by done. simpl in H. rewrite Hn in H.
      simplify_eq/=. split; intros Hf; by destruct (Hnil _ Hf). }
    destruct (form (request st) !! "password") as [pw|] eqn:Hp; last first.
    { rewrite E in H. simpl in H.
      rewrite register_post in H by done. simpl in H. rewrite Hn, Hp in H.
      simplify_eq/=. split; intros Hf; by destruct (Hnil _ Hf). }
    clear E.
    rewrite (register_request st name pw) in H by done.
    repeat case_decide; try destruct (insert_user _ _ _); simplify_eq/=;
      split; intros Hx;
      first [by destruct (Hnil _ Hx) | apply app_inv_head in Hx];
      by simplify_eq/=.
Qed.

End Requests.

(** ** The claims on the demo site *)

Section OnTheDemoSite.
Import Demo.

Abbreviation serve := (App.wsgi_app demo_hash demo_check).

Lemma site_schema_ok : schema_ok site.
Proof.
  split; simpl.
  - by apply (bool_decide_unpack (NoDup [1; 2])).
  - by apply (bool_decide_unpack (NoDup ["alice"; "bob"])).
  - by apply (bool_decide_unpack (NoDup [1; 2; 3])).
  - intros p Hp. repeat (apply elem_of_cons in Hp as [->|Hp]).
    + exists alice. split; [repeat constructor|done].
    + exists bob. split; [repeat constructor|done].
    + exists alice. split; [repeat constructor|done].
    + by apply elem_of_nil in Hp.
Qed.

(** C1 on the site, with alice as the current user: no post 9, no post
    2^63, bob's post 2, her own post 1. *)
Lemma get_post_spec_witness :
  Blog.get_post 9 true (visit_as alice GET [])
  = (Raise (HTTPException 404 (Some "Post id 9 doesn't exist.")),
     visit_as alice GET []) ∧
  Blog.get_post 9223372036854775808 true (visit_as alice GET [])
  = (Raise OverflowError, visit_as alice GET []) ∧
  Blog.get_post 2 true (visit_as alice GET [])
  = (Raise (HTTPException 403 None), visit_as alice GET []) ∧
  Blog.get_post 1 true (visit_as alice GET [])
  = (Return (PostView 1 "first" "hello" 100 1 "alice"), visit_as alice GET []).
Proof.
  assert (Ha : alice ∈ user (db (visit_as alice GET [])))
    by repeat constructor.
  split; [|split; [|split]].
  - apply (get_post_spec 9 alice (visit_as alice GET []) site_schema_ok eq_refl Ha).
    intros p Hp. repeat (apply elem_of_cons in Hp as [->|Hp]); try done.
    by apply elem_of_nil in Hp.
  - apply (get_post_spec 9223372036854775808 alice (visit_as alice GET [])
             site_schema_ok eq_refl Ha).
    intros p Hp. repeat (apply elem_of_cons in Hp as [->|Hp]); try done.
    by apply elem_of_nil in Hp.
  - apply (get_post_spec 2 alice (visit_as alice GET []) site_schema_ok eq_refl Ha)
      with (p := PostRow 2 2 250 "second" ""); [repeat constructor|done|done].
  - apply (get_post_spec 1 alice (visit_as alice GET []) site_schema_ok eq_refl Ha)
      with (p := PostRow 1 1 100 "first" "hello"); [repeat constructor|done|done].
Defined.

(** C2 on the site: a view that flashes whenever it runs, behind the
    guard, for an anonymous visitor and for alice. *)
Lemma login_required_guard_witness :
  Auth.login_required noisy_view () (visit GET [] [])
  = (Return (Redirect 302 "/auth/login"), visit GET [] []) ∧
  Auth.login_required noisy_view () (visit_as alice GET [])
  = noisy_view () (visit_as alice GET []).
Proof.
  split.
  - by apply (login_required_guard noisy_view () (visit GET [] [])).
  - by apply (login_required_guard noisy_view () (visit_as alice GET []))
      with (u := alice).
Defined.

(** C3 as it was stated fails here: alice is registered, and registering
    her name with an empty password is answered with the missing-password
    message, not the duplicate-username one. *)
Lemma register_taken_name_empty_password :
  method (request (visit POST [("username", "alice"); ("password", "")] []))
  = POST ∧
  "alice" ∈ username <$> user site ∧
  flashes (serve App.ep_register
             (visit POST [("username", "alice"); ("password", "")] [])).2
  = ["Password is required."] ∧
  flashes (serve App.ep_register
             (visit POST [("username", "alice"); ("password", "")] [])).2
  ≠ ["User alice is already registered."].
Proof.
  split; [done|]. split; [repeat constructor|]. split; [by vm_compute|].
  by vm_compute.
Qed.

(** C3 as amended, on the site: alice's name with a password. *)
Lemma register_duplicate_username_witness :
  ∃ st',
    serve App.ep_register
      (visit POST [("username", "alice"); ("password", "pw9")] [])
    = (Page "auth/register.html" NoArgs, st') ∧
    committed st' = site ∧
    session st' = ∅ ∧
    flashes st' = ["User alice is already registered."].
Proof.
  destruct (register_duplicate_username demo_hash demo_check
              (visit POST [("username", "alice"); ("password", "pw9")] [])
              "alice" "pw9" eq_refl eq_refl eq_refl)
    as (st' & H1 & H2 & H3 & H4); [repeat constructor|].
  exists st'. by rewrite H1, H2, H3, H4.
Defined.

(** C4 on the site: a new name with a password. *)
Lemma register_validation_order_witness :
  ∃ st',
    serve App.ep_register
      (visit POST [("username", "carol"); ("password", "pw3")] [])
    = (Redirect 302 "/auth/login", st') ∧
    session st' = ∅ ∧
    flashes st' = [] ∧
    user (committed st') = [alice; bob; UserRow 3 "carol" "hash$pw3"].
Proof.
  destruct (register_validation_order demo_hash demo_check
              (visit POST [("username", "carol"); ("password", "pw3")] [])
              "carol" "pw3" eq_refl eq_refl eq_refl)
    as (resp & st' & H1 & H2 & _ & H3).
  rewrite decide_False in H3 by done. rewrite decide_False in H3 by done.
  rewrite decide_False in H3.
  - destruct H3 as (-> & H4 & H5). exists st'. by rewrite H1, H2, H4, H5.
  - intros Hin. simpl in Hin. repeat (apply elem_of_cons in Hin as [?|Hin]);
      try done. by apply elem_of_nil in Hin.
Defined.

(** C5 as it was stated fails here: bob is logged in and tries alice's
    name with a wrong password; the session is as it was, and the next
    request is still served for bob. *)
Lemma login_bad_password_keeps_user :
  alice ∈ user site ∧
  demo_check (password alice) "wrong" = false ∧
  (serve App.ep_login
     (visit POST [("username", "alice"); ("password", "wrong")]
            [("user_id", 2)])).1
  = Page "auth/login.html" NoArgs ∧
  session (serve App.ep_login
             (visit POST [("username", "alice"); ("password", "wrong")]
                    [("user_id", 2)])).2
  = session (visit POST [("username", "alice"); ("password", "wrong")]
                   [("user_id", 2)]) ∧
  App.resolve_current_user
    (serve App.ep_login
       (visit POST [("username", "alice"); ("password", "wrong")]
              [("user_id", 2)])).2
  = Some bob.
Proof.
  split; [repeat constructor|]. split; [by vm_compute|].
  split; [by vm_compute|]. split; by vm_compute.
Qed.

(** C5 as amended, on the same request. *)
Lemma login_bad_password_witness :
  ∃ st',
    serve App.ep_login
      (visit POST [("username", "alice"); ("password", "wrong")]
             [("user_id", 2)])
    = (Page "auth/login.html" NoArgs, st') ∧
    flashes st' = ["Incorrect password."] ∧
    App.resolve_current_user st' = Some bob.
Proof.
  destruct (login_bad_password demo_hash demo_check
              (visit POST [("username", "alice"); ("password", "wrong")]
                     [("user_id", 2)])
              "alice" "wrong" alice eq_refl eq_refl eq_refl site_schema_ok)
    as (st' & H1 & H2 & _ & _ & H3 & _);
    [repeat constructor|done|by vm_compute|].
  exists st'. rewrite H1, H2, H3. by vm_compute.
Defined.

(** C6 on the site: alice retitles her post 1. *)
Lemma update_frame_witness :
  ∃ st',
    serve (App.ep_update 1)
      (visit POST [("title", "renamed"); ("body", "hi")] [("user_id", 1)])
    = (Redirect 302 "/", st') ∧
    user (committed st') = user site ∧
    Forall2 (λ p p',
               post_id p' = post_id p ∧ created p' = created p ∧
               author_id p' = author_id p ∧
               if decide (post_id p = 1)
               then title p' = "renamed" ∧ body p' = "hi" else p' = p)
            (post site) (post (committed st')).
Proof.
  eexists. split; [by vm_compute|].
  destruct (update_frame demo_hash demo_check 1
              (visit POST [("title", "renamed"); ("body", "hi")]
                     [("user_id", 1)]) _ eq_refl)
    as (ttl & bdy & Ht & Hb & Hu & Hp & _).
  vm_compute in Ht. vm_compute in Hb. simplify_eq. by split.
Defined.

(** C7 as it was stated fails here: carol's registration succeeds and the
    redirect it is answered with has status 302, not 303. *)
Lemma register_redirect_is_not_303 :
  ("carol" ∉ username <$> user site) ∧
  (serve App.ep_register
     (visit POST [("username", "carol"); ("password", "pw3")] [])).1
  = Redirect 302 "/auth/login" ∧
  (serve App.ep_register
     (visit POST [("username", "carol"); ("password", "pw3")] [])).1
  ≠ Redirect 303 "/auth/login".
Proof.
  split; [|by vm_compute].
  intros Hin. simpl in Hin. repeat (apply elem_of_cons in Hin as [?|Hin]);
    try done. by apply elem_of_nil in Hin.
Qed.

(** C7 as amended, on the same request. *)
Lemma register_success_redirect_witness :
  (serve App.ep_register
     (visit POST [("username", "carol"); ("password", "pw3")] [])).1
  = Redirect 302 "/auth/login".
Proof.
  apply (register_success_redirect demo_hash demo_check
           (visit POST [("username", "carol"); ("password", "pw3")] [])
           "carol" "pw3" eq_refl eq_refl eq_refl); [done|done|].
  intros Hin. simpl in Hin. repeat (apply elem_of_cons in Hin as [?|Hin]);
    try done. by apply elem_of_nil in Hin.
Defined.

(** C8 on the site: bob's post is the newest; alice's two posts share a
    timestamp and stay in table order. *)
Lemma index_lists_posts_witness :
  ∃ st',
    serve App.ep_index (visit GET [] [])
    = (Page "blog/index.html"
         (Posts [PostView 2 "second" "" 250 2 "bob";
                 PostView 1 "first" "hello" 100 1 "alice";
                 PostView 3 "third" "again" 100 1 "alice"]), st') ∧
    committed st' = site.
Proof.
  destruct (index_lists_posts demo_hash demo_check (visit GET [] [])
              eq_refl site_schema_ok)
    as (rows & joined & st' & H1 & H2 & _).
  exists st'. split; [|done]. rewrite H1. vm_compute in H1. by simplify_eq.
Defined.

(** C9 on the site: alice posts an empty title to [/create] and to
    [/1/update]; only the second flashes the message. *)
Lemma empty_title_writes_nothing_witness :
  (∃ st',
     serve App.ep_create
       (visit POST [("title", ""); ("body", "text")] [("user_id", 1)])
     = (Page "blog/create.html" NoArgs, st') ∧
     committed st' = site ∧ flashes st' = []) ∧
  (∃ st',
     serve (App.ep_update 1)
       (visit POST [("title", ""); ("body", "text")] [("user_id", 1)])
     = (Page "blog/update.html" (Post (PostView 1 "first" "hello" 100 1 "alice")),
        st') ∧
     committed st' = site ∧ flashes st' = ["Title is required."]).
Proof.
  destruct (empty_title_writes_nothing demo_hash demo_check
              (visit POST [("title", ""); ("body", "text")] [("user_id", 1)])
              alice "text" eq_refl eq_refl eq_refl eq_refl)
    as [(st1 & H1 & H2 & H3) Hupd].
  split; [by exists st1|].
  destruct (Hupd (PostRow 1 1 100 "first" "hello") site_schema_ok)
    as (st2 & H4 & H5 & H6); [repeat constructor|done|].
  by exists st2.
Defined.

(** C10 on the site: a registration and a login with no [password] key. *)
Lemma missing_form_key_witness :
  serve App.ep_register (visit POST [("username", "carol")] [])
  = (Error 400 None, visit POST [("username", "carol")] []) ∧
  serve App.ep_login (visit POST [("username", "carol")] [])
  = (Error 400 None, visit POST [("username", "carol")] []).
Proof.
  destruct (missing_form_key demo_hash demo_check
              (visit POST [("username", "carol")] [])) as [H _].
  destruct (H eq_refl (or_intror eq_refl)) as (key & _ & _ & Hreq).
  split.
  - by rewrite (Hreq App.ep_register (or_introl eq_refl)).
  - by rewrite (Hreq App.ep_login (or_intror eq_refl)).
Defined.

End OnTheDemoSite.

(** ** More about the views *)

Section Further.

Variable generate_password_hash : string → string.
Variable check_password_hash : string → string → bool.

Abbreviation wsgi_app :=
  (App.wsgi_app generate_password_hash check_password_hash).
Abbreviation view_function :=
  (App.view_function generate_password_hash check_password_hash).
Abbreviation to_view :=
  (wsgi_app_view generate_password_hash check_password_hash).

Lemma filter_none {A : Type} (P : A → Prop) `{!∀ x, Decision (P x)}
    (l : list A) :
  (∀ x, x ∈ l → ¬ P x) → filter P l = [].
Proof.
  induction l as [|x l IH]; intros Hno; [done|].
  rewrite filter_cons_False by (apply Hno; left).
  apply IH. intros y Hy. apply Hno. by right.
Qed.

Lemma key_unique {A : Type} (key : A → Z) (l : list A) (a b : A) :
  NoDup (key <$> l) → a ∈ l → b ∈ l → key b = key a → b = a.
Proof.
  intros Hnd Ha Hb Hk.
  assert (Hin : b ∈ filter (λ x, key x = key a) l)
    by (by apply list_elem_of_filter).
  rewrite (filter_key_unique key l a) in Hin by done.
  by apply list_elem_of_singleton in Hin.
Qed.

Lemma logout_eq (st : state) :
  Auth.logout st
  = (Return (Redirect 302 "/"), with_flashes [] (with_session ∅ st)).
Proof. unfold Auth.logout. by run. Qed.

Abbreviation dispatch :=
  (wsgi_app_cases generate_password_hash check_password_hash).

(** [delete], by what the guard and [get_post] answer. *)
Lemma delete_eq (id : Z) (st : state) :
  Blog.delete id st
  = match g_user st with
    | None => (Return (Redirect 302 "/auth/login"), st)
    | Some _ =>
        match Blog.get_post id true st with
        | (Raise e, _) => (Raise e, st)
        | (Return _, _) =>
            let d := delete_post id (db st) in
            (Return (Redirect 302 "/"), with_committed d (with_db d st))
        end
    end.
Proof.
  pose proof (get_post_state id st) as Hst.
  unfold Blog.delete. rewrite login_required_eq.
  destruct (g_user st); [|done]. run.
  destruct (Blog.get_post id true st) as [[v|e] st1]; simpl in Hst; by subst st1.
Qed.

(** [update], by what the guard and [get_post] answer. *)
Lemma update_eq (id : Z) (st : state) :
  Blog.update id st
  = match g_user st with
    | None => (Return (Redirect 302 "/auth/login"), st)
    | Some _ =>
        match Blog.get_post id true st with
        | (Raise e, _) => (Raise e, st)
        | (Return v, _) =>
            if decide (method (request st) = POST) then
              match form (request st) !! "title",
                    form (request st) !! "body" with
              | None, _ => (Raise (BadRequestKeyError "title"), st)
              | Some _, None => (Raise (BadRequestKeyError "body"), st)
              | Some ttl, Some bdy =>
                  if decide (ttl = "") then
                    (Return (Page "blog/update.html" (Post v)),
                     with_flashes (flashes st ++ ["Title is required."]) st)
                  else
                    let d := update_post ttl bdy id (db st) in
                    (Return (Redirect 302 "/"),
                     with_committed d (with_db d st))
              end
            else (Return (Page "blog/update.html" (Post v)), st)
        end
    end.
Proof.
  destruct (update_cases id st)
    as [[Hg E]|[(e & Hgp & E)|[(v & Hgp & Hm & E)|(u & v & Hg & Hgp & Hm)]]].
  - by rewrite E, Hg.
  - rewrite E, Hgp. destruct (g_user st) eqn:Hg; [done|].
    unfold Blog.update in E. rewrite login_required_eq, Hg in E. by simplify_eq.
  - rewrite E, Hgp, decide_False by done. destruct (g_user st) eqn:Hg; [done|].
    unfold Blog.update in E. rewrite login_required_eq, Hg in E. by simplify_eq.
  - rewrite (update_post_eq id st u v) by done.
    by rewrite Hg, Hgp, decide_True by done.
Qed.

(** What [get_post] returns is the row found for a post of the table with
    that id whose author is the current user. *)
Lemma get_post_Return (id : Z) (st : state) (v : post_view) (st1 : state) :
  Blog.get_post id true st = (Return v, st1) →
  ∃ u p, g_user st = Some u ∧ p ∈ post (db st) ∧ post_id p = id ∧
         author_id p = user_id u ∧ select_post_by_id id (db st) = Some v.
Proof.
  rewrite get_post_eq. case_decide; [|done].
  destruct (select_post_by_id id (db st)) as [w|] eqn:Hs; [|done].
  destruct (g_user st) as [u|]; [|done]. case_bool_decide as Ha; [done|].
  intros ?; simplify_eq. exists u.
  unfold select_post_by_id in Hs. apply head_Some_elem_of in Hs.
  apply list_elem_of_filter in Hs as [Hid Hv].
  apply elem_of_post_join_user in Hv as (p & a & Hp & _ & _ & ->).
  exists p. repeat split; try done.
Qed.

(** What a request can have done to the database file, by endpoint. *)
Lemma wsgi_app_effect (e : App.endpoint) (st : state) :
  committed (wsgi_app e st).2 = committed st ∨
  (e = App.ep_register ∧ method (request st) = POST ∧
   ∃ name hash,
     insert_user name hash (committed st) = Some (committed (wsgi_app e st).2)) ∨
  (e = App.ep_create ∧ method (request st) = POST ∧
   ∃ u ttl bdy,
     App.resolve_current_user st = Some u ∧
     committed (wsgi_app e st).2
     = insert_post ttl bdy (user_id u) (now st) (committed st)) ∨
  (∃ id ttl bdy,
     e = App.ep_update id ∧ method (request st) = POST ∧
     committed (wsgi_app e st).2 = update_post ttl bdy id (committed st)) ∨
  (∃ id,
     e = App.ep_delete id ∧ method (request st) = POST ∧
     committed (wsgi_app e st).2 = delete_post id (committed st)).
Proof.
  destruct (dispatch e st) as [E|(_ & Hv & E)]; rewrite E; clear E;
    [by left|].
  rewrite resolve_current_user_eq.
  destruct e; simpl;
    unfold App.hello, Auth.register, Auth.login, Auth.logout, Blog.index,
      Blog.create, Blog.update, Blog.delete, Auth.login_required, Blog.get_post,
      url_for;
    run;
    repeat (case_match; run; simplify_eq/=);
    try (by left).
  all: assert (method (request st) = POST)
    by (by apply list_elem_of_singleton in Hv ||
        match goal with
        | Hp : bool_decide (_ = POST) = true |- _ =>
            by apply bool_decide_eq_true in Hp
        end).
  all: right; eauto 12.
Qed.

(** What a view can answer or raise: no view returns an error response of
    its own; the aborts are 403 and 404; the only other exceptions that
    leave a view are that of a missing form key and, from [get_post] in
    update and delete for a logged-in user, the [OverflowError] of an id
    that does not fit 64 bits. *)
Lemma view_response (e : App.endpoint) (st : state) :
  match (view_function e st).1 with
  | Return (Error _ _) => False
  | Return _ => True
  | Raise (HTTPException code _) => code = 403 ∨ code = 404
  | Raise (BadRequestKeyError _) => True
  | Raise OverflowError =>
      ∃ id, (e = App.ep_update id ∨ e = App.ep_delete id) ∧
            ¬ sqlite_integer id ∧ g_user st ≠ None
  | Raise _ => False
  end.
Proof.
  destruct e; simpl;
    unfold App.hello, Auth.register, Auth.login, Auth.logout, Blog.index,
      Blog.create, Blog.update, Blog.delete, Auth.login_required, Blog.get_post,
      url_for;
    run;
    repeat (case_match; run; simplify_eq/=);
    try done; try (by left); try (by right).
  all: eexists; split; [by (left + right)|]; split; [|done].
  all: match goal with
       | Hb : bool_decide (bindable_post_id _ _) = false |- _ =>
           apply bool_decide_eq_false in Hb; intros Hi; apply Hb; by right
       end.
Qed.

(** *** Sessions *)

(** X1: a logout request is answered with the redirect to the index and
    leaves the session empty, whatever it held, and with it the queue of
    flashed messages, which Flask keeps in the session; the database file
    is as it was, and the next request is served for no user. *)
Theorem logout_ends_session (st : state) :
  method (request st) = GET →
  ∃ st',
    wsgi_app App.ep_logout st = (Redirect 302 "/", st') ∧
    session st' = ∅ ∧
    flashes st' = [] ∧
    committed st' = committed st ∧
    App.resolve_current_user st' = None.
Proof.
  intros Hm. rewrite to_view by (rewrite Hm; repeat constructor).
  cbn [App.view_function]. rewrite logout_eq. simpl.
  eexists. split; [done|]. simpl. by rewrite resolve_current_user_eq.
Qed.

(** X2: a login POST with the name of a user of the table (of a store
    within its schema) and a password that verifies against the stored
    hash is answered with the redirect to the index; the session is then
    exactly [user_id] mapped to that user's id, with nothing kept of what
    it held before, the queue of flashed messages included, which Flask
    keeps in the session and [session.clear()] empties; the next request
    is served for that user.  The database file is as it was. *)
Theorem login_establishes_session (st : state) (name pw : string)
    (u : user_row) :
  method (request st) = POST →
  form (request st) !! "username" = Some name →
  form (request st) !! "password" = Some pw →
  schema_ok (committed st) →
  u ∈ user (committed st) → username u = name →
  check_password_hash (password u) pw = true →
  ∃ st',
    wsgi_app App.ep_login st = (Redirect 302 "/", st') ∧
    session st' = {["user_id" := user_id u]} ∧
    flashes st' = [] ∧
    committed st' = committed st ∧
    App.resolve_current_user st' = Some u.
Proof.
  intros Hm Hn Hp Hok Hu <- Hc.
  rewrite to_view by (rewrite Hm; repeat constructor).
  simpl. rewrite login_post by done. simpl. rewrite Hn, Hp.
  rewrite select_user_by_username_Some by (done || by destruct Hok).
  rewrite Hc. eexists. split; [done|]. simpl.
  rewrite resolve_current_user_eq. simpl. rewrite lookup_insert_eq.
  repeat split; try done.
  unfold select_user_by_id.
  rewrite (filter_key_unique user_id _ u) by (done || by destruct Hok). done.
Qed.

(** X3: a login POST with a name that is not in the user table gets the
    login form again with "Incorrect username." flashed, whatever the
    password is; session and database file are as they were. *)
Theorem login_unknown_username (st : state) (name pw : string) :
  method (request st) = POST →
  form (request st) !! "username" = Some name →
  form (request st) !! "password" = Some pw →
  name ∉ username <$> user (committed st) →
  ∃ st',
    wsgi_app App.ep_login st = (Page "auth/login.html" NoArgs, st') ∧
    flashes st' = flashes st ++ ["Incorrect username."] ∧
    session st' = session st ∧
    committed st' = committed st.
Proof.
  intros Hm Hn Hp Hno. rewrite to_view by (rewrite Hm; repeat constructor).
  simpl. rewrite login_post by done. simpl. rewrite Hn, Hp.
  rewrite select_user_by_username_None by done. by eexists.
Qed.

(** X4: registering and then logging in.  After a registration POST with
    a free, non-empty username and a non-empty password, a login POST with
    the same two fields, on a server whose database file is the one the
    registration left, is answered with the redirect to the index, and the
    next request is served for a user with that name, the hash of that
    password and an id no user had before.  This needs of the two hash
    functions that the hash of the password verifies against it. *)
Theorem register_then_login (st s : state) (name pw : string) :
  method (request st) = POST →
  form (request st) !! "username" = Some name →
  form (request st) !! "password" = Some pw →
  name ≠ "" → pw ≠ "" →
  name ∉ username <$> user (committed st) →
  check_password_hash (generate_password_hash pw) pw = true →
  committed s = committed (wsgi_app App.ep_register st).2 →
  method (request s) = POST →
  form (request s) !! "username" = Some name →
  form (request s) !! "password" = Some pw →
  ∃ s' u,
    wsgi_app App.ep_login s = (Redirect 302 "/", s') ∧
    App.resolve_current_user s' = Some u ∧
    username u = name ∧
    password u = generate_password_hash pw ∧
    user_id u ∉ user_id <$> user (committed st).
Proof.
  intros Hm Hn Hp Hne Hpe Hno Hc Hs Hm' Hn' Hp'.
  rewrite (register_request _ _ st name pw) in Hs by done.
  rewrite !decide_False in Hs by done.
  unfold insert_user in Hs. rewrite bool_decide_false in Hs by done.
  simpl in Hs.
  set (new := UserRow (next_id (user_id <$> user (committed st))) name
                      (generate_password_hash pw)) in Hs.
  rewrite to_view by (rewrite Hm'; repeat constructor). simpl.
  rewrite login_post by done. simpl. rewrite Hn', Hp', Hs.
  unfold select_user_by_username. simpl. rewrite filter_app.
  rewrite filter_none; last first.
  { intros x Hx Hname. apply Hno. rewrite <- Hname.
    by apply list_elem_of_fmap_2. }
  rewrite filter_cons_True by done. simpl. rewrite Hc.
  eexists _, new. split; [done|]. rewrite resolve_current_user_eq. simpl.
  rewrite lookup_insert_eq, Hs. unfold select_user_by_id. simpl.
  rewrite filter_app, filter_none; last first.
  { intros x Hx Hid. apply (next_id_fresh (user_id <$> user (committed st))).
    rewrite <- Hid. by apply list_elem_of_fmap_2. }
  rewrite filter_cons_True by done. repeat split; try done.
  apply next_id_fresh.
Qed.


(** *** Who may write *)

(** X6: a request to create, update or delete, with a method the route
    takes, from a session that resolves to no user is answered with the
    redirect to [/auth/login]; database file, session and flash queue are
    as they were. *)
Theorem anonymous_is_redirected (e : App.endpoint) (st : state) :
  (e = App.ep_create ∨ (∃ id, e = App.ep_update id) ∨
   (∃ id, e = App.ep_delete id)) →
  method (request st) ∈ App.methods e →
  App.resolve_current_user st = None →
  ∃ st',
    wsgi_app e st = (Redirect 302 "/auth/login", st') ∧
    committed st' = committed st ∧
    session st' = session st ∧
    flashes st' = flashes st.
Proof.
  intros He Hm Hu. rewrite to_view by done. rewrite Hu.
  destruct He as [->|[[id ->]|[id ->]]]; cbn [App.view_function].
  - unfold Blog.create. rewrite login_required_eq. simpl. by eexists.
  - rewrite update_eq. simpl. by eexists.
  - rewrite delete_eq. simpl. by eexists.
Qed.

(** X7: update and delete answer alike for a logged-in user, on a store
    within its schema and with a method the route takes.  When no post has
    the id: 404 with the message naming the id if the id fits SQLite's 64
    bits, and 500 otherwise, for the [OverflowError] that [get_post] lets
    out.  When a post has the id and another user is its author: 403.  In
    each case the request changes nothing, whatever its method and form
    are. *)
Theorem post_guard_blocks (e : App.endpoint) (id : Z) (u : user_row)
    (st : state) :
  e = App.ep_update id ∨ e = App.ep_delete id →
  method (request st) ∈ App.methods e →
  schema_ok (committed st) →
  App.resolve_current_user st = Some u →
  ((∀ p, p ∈ post (committed st) → post_id p ≠ id) →
   wsgi_app e st
   = (if decide (sqlite_integer id) then
        Error 404 (Some ("Post id " +:+ pretty id +:+ " doesn't exist."))
      else Error 500 None,
      App.request_context st)) ∧
  (∀ p, p ∈ post (committed st) → post_id p = id →
        author_id p ≠ user_id u →
        wsgi_app e st = (Error 403 None, App.request_context st)).
Proof.
  intros He Hm Hok Hu. rewrite to_view by done. rewrite Hu.
  set (stv := with_g_user _ _). split.
  - intros Hno.
    pose proof (get_post_absent id true stv Hno) as Hgp.
    destruct He as [-> | ->]; cbn [App.view_function].
    + rewrite update_eq, Hgp. by case_decide.
    + rewrite delete_eq, Hgp. by case_decide.
  - intros p Hp Hid Hne.
    assert (Hgp : Blog.get_post id true stv
                  = (Raise (HTTPException 403 None), stv)).
    { rewrite get_post_eq. simpl. subst id.
      rewrite decide_True by (by apply bindable_post_id_elem).
      destruct (author_fk _ Hok p Hp) as (a & Ha & Haid).
      rewrite (select_post_by_id_Some _ p a) by done. simpl.
      by rewrite bool_decide_true. }
    destruct He as [-> | ->]; cbn [App.view_function].
    + by rewrite update_eq, Hgp.
    + by rewrite delete_eq, Hgp.
Qed.

(** X8: a delete request that succeeded (it was answered with the redirect
    to the index) left the user table as it was and removed from the post
    table the rows with that id and no other, the rest keeping their
    order; session and flash queue are untouched, and looking the id up
    afterwards finds nothing. *)
Theorem delete_removes_post (id : Z) (st st' : state) :
  wsgi_app (App.ep_delete id) st = (Redirect 302 "/", st') →
  user (committed st') = user (committed st) ∧
  post (committed st') = filter (λ p, post_id p ≠ id) (post (committed st)) ∧
  session st' = session st ∧
  flashes st' = flashes st ∧
  select_post_by_id id (committed st') = None.
Proof.
  intros H.
  destruct (dispatch (App.ep_delete id) st) as [E|(_ & _ & E)];
    rewrite E in H; [by case_decide; simplify_eq|clear E].
  cbn [App.view_function] in H.
  rewrite delete_eq in H. set (stv := with_g_user _ _) in H.
  destruct (g_user stv); [|by simplify_eq/=].
  destruct (Blog.get_post id true stv) as [[v|ex] st1];
    [|destruct ex; by simplify_eq/=].
  simplify_eq/=. repeat split; try done.
  apply select_post_by_id_None. simpl.
  by intros p [Hne _]%list_elem_of_filter.
Qed.

(** X9: only its author changes a post.  Whenever an update or a delete
    request changed the database file, the request was served for a user
    who is the author of a post with that id; on a store within its schema
    that post is the only one with the id. *)
Theorem mutation_by_author_only (e : App.endpoint) (id : Z) (st : state) :
  e = App.ep_update id ∨ e = App.ep_delete id →
  committed (wsgi_app e st).2 ≠ committed st →
  ∃ u p,
    App.resolve_current_user st = Some u ∧
    p ∈ post (committed st) ∧ post_id p = id ∧
    author_id p = user_id u ∧
    (schema_ok (committed st) →
     ∀ q, q ∈ post (committed st) → post_id q = id → q = p).
Proof.
  intros He Hch.
  destruct (dispatch e st) as [E|(_ & _ & E)];
    rewrite E in Hch; [by destruct Hch|clear E].
  set (stv := with_g_user _ _) in Hch.
  assert (Hgp : ∀ v st1, Blog.get_post id true stv = (Return v, st1) →
            ∃ u p, App.resolve_current_user st = Some u ∧
                   p ∈ post (committed st) ∧ post_id p = id ∧
                   author_id p = user_id u ∧
                   (schema_ok (committed st) →
                    ∀ q, q ∈ post (committed st) → post_id q = id → q = p)).
  { intros v st1 Hv.
    apply get_post_Return in Hv as (u & p & Hg & Hp & Hid & Ha & _).
    exists u, p. repeat split; try done.
    intros Hok q Hq Hqid.
    apply (key_unique post_id (post (committed st))); try done.
    - by destruct Hok.
    - congruence. }
  destruct (Blog.get_post id true stv) as [[v|ex] st1] eqn:Hv;
    [by eapply Hgp|].
  destruct He as [-> | ->]; cbn [App.view_function] in Hch.
  - rewrite update_eq, Hv in Hch. by destruct (g_user stv); destruct Hch.
  - rewrite delete_eq, Hv in Hch. by destruct (g_user stv); destruct Hch.
Qed.

(** *** Creating and reading posts *)

(** X10: a create POST by a logged-in user with a non-empty title and a
    body (which may be empty) is answered with the redirect to the index
    and appends one row to the post table: a new id, the current user's id
    as author whatever else the form carries, the store's time, the title
    and the body.  Everything else is as it was, and the index lists the
    new post with its author's username. *)
Theorem create_inserts_post (st : state) (u : user_row) (ttl bdy : string) :
  method (request st) = POST →
  App.resolve_current_user st = Some u →
  form (request st) !! "title" = Some ttl →
  form (request st) !! "body" = Some bdy →
  ttl ≠ "" →
  ∃ st' id,
    wsgi_app App.ep_create st = (Redirect 302 "/", st') ∧
    user (committed st') = user (committed st) ∧
    post (committed st')
    = post (committed st) ++ [PostRow id (user_id u) (now st) ttl bdy] ∧
    (id ∉ post_id <$> post (committed st)) ∧
    session st' = session st ∧
    flashes st' = flashes st ∧
    join_row (PostRow id (user_id u) (now st) ttl bdy) u
    ∈ select_posts (committed st').
Proof.
  intros Hm Hu Ht Hb Hne. rewrite to_view by (rewrite Hm; repeat constructor).
  cbn [App.view_function]. rewrite Hu.
  rewrite (create_post_eq _ u) by done. simpl. rewrite Ht, Hb.
  rewrite decide_False by done. simpl.
  eexists _, _. split; [done|]. simpl. repeat split; try done.
  - apply next_id_fresh.
  - unfold select_posts. rewrite order_by_created_desc_Permutation.
    apply elem_of_post_join_user. simpl.
    eexists _, u. split; [apply elem_of_app; right; by left|].
    split; [by apply (resolve_current_user_elem st)|done].
Qed.

(** X11: a create POST by a logged-in user whose form has no [title] key,
    or no [body] key, is answered 400 and changes nothing, even when the
    title that is there is a good one; so is an update POST by the author
    of the post. *)
Theorem blog_missing_form_key (st : state) (u : user_row) :
  method (request st) = POST →
  App.resolve_current_user st = Some u →
  form (request st) !! "title" = None ∨ form (request st) !! "body" = None →
  wsgi_app App.ep_create st = (Error 400 None, App.request_context st) ∧
  (∀ p, schema_ok (committed st) → p ∈ post (committed st) →
        author_id p = user_id u →
        wsgi_app (App.ep_update (post_id p)) st
        = (Error 400 None, App.request_context st)).
Proof.
  intros Hm Hu Hk. split.
  - rewrite to_view by (rewrite Hm; repeat constructor).
    cbn [App.view_function]. rewrite Hu.
    rewrite (create_post_eq _ u) by done. simpl.
    destruct Hk as [Hk|Hk]; rewrite Hk; [done|].
    by destruct (form (request st) !! "title").
  - intros p Hok Hp Ha.
    rewrite to_view by (rewrite Hm; repeat constructor).
    cbn [App.view_function]. rewrite Hu. set (stv := with_g_user _ _).
    assert (Hgp : Blog.get_post (post_id p) true stv
                  = (Return (join_row p u), stv))
      by (apply (get_post_author (committed st));
          eauto using resolve_current_user_elem).
    rewrite (update_post_eq _ stv u (join_row p u)) by done. simpl.
    destruct Hk as [Hk|Hk]; rewrite Hk; [done|].
    by destruct (form (request st) !! "title").
Qed.

(** X12: [get_post(id, check_author=False)] does not look at the current
    user.  When no post has the id it aborts with 404 if the id fits
    SQLite's 64 bits and raises [OverflowError] otherwise; on a store
    within its schema it returns the post with that id joined with its
    author's name, for every [g.user], [None] included. *)
Theorem get_post_unchecked (id : Z) (st : state) :
  ((∀ p, p ∈ post (db st) → post_id p ≠ id) →
   Blog.get_post id false st
   = if decide (sqlite_integer id) then
       (Raise (HTTPException 404
                 (Some ("Post id " +:+ pretty id +:+ " doesn't exist."))), st)
     else (Raise OverflowError, st)) ∧
  (∀ p a, schema_ok (db st) → p ∈ post (db st) → post_id p = id →
          a ∈ user (db st) → user_id a = author_id p →
          Blog.get_post id false st = (Return (join_row p a), st)).
Proof.
  split; [by apply get_post_absent|].
  intros p a Hok Hp <- Ha Hid. unfold Blog.get_post. run.
  rewrite bool_decide_true by (by apply bindable_post_id_elem). run.
  by rewrite (select_post_by_id_Some _ p a).
Qed.

(** X13: reading back an update.  On a store within its schema, after an
    update request that succeeded, looking the id up gives the row it gave
    before with the title and the body of the form in place of the old
    ones. *)
Theorem update_then_read (id : Z) (st st' : state) :
  schema_ok (committed st) →
  wsgi_app (App.ep_update id) st = (Redirect 302 "/", st') →
  ∃ v ttl bdy,
    form (request st) !! "title" = Some ttl ∧
    form (request st) !! "body" = Some bdy ∧
    select_post_by_id id (committed st) = Some v ∧
    select_post_by_id id (committed st')
    = Some (PostView id ttl bdy (v_created v) (v_author_id v) (v_username v)).
Proof.
  intros Hok H.
  destruct (dispatch (App.ep_update id) st) as [E|(_ & _ & E)];
    rewrite E in H; [by case_decide; simplify_eq|clear E].
  cbn [App.view_function] in H.
  rewrite update_eq in H. set (stv := with_g_user _ _) in H.
  destruct (g_user stv) as [u|] eqn:Hg; [|by simplify_eq/=].
  destruct (Blog.get_post id true stv) as [[v|ex] st1] eqn:Hv;
    [|destruct ex; by simplify_eq/=].
  apply get_post_Return in Hv as (u' & p & Hg' & Hp & Hid & Ha & Hsel).
  simpl in Hp, Hsel.
  case_decide; [|by simplify_eq/=].
  simpl in H.
  destruct (form (request st) !! "title") as [ttl|]; [|by simplify_eq/=].
  destruct (form (request st) !! "body") as [bdy|]; [|by simplify_eq/=].
  destruct (decide (ttl = "")); simplify_eq/=.
  exists v, ttl, bdy. repeat split; try done.
  destruct (author_fk _ Hok p Hp) as (a & Hain & Haid).
  rewrite (select_post_by_id_Some _ p a) in Hsel by done. simplify_eq.
  set (d := update_post ttl bdy (post_id p) (committed st)).
  assert (Hok' : schema_ok d).
  { apply (store_step_schema_ok st); [done|]. by eapply App.step_update_post. }
  change (post_id p) with (post_id (set_title_body ttl bdy p)).
  rewrite (select_post_by_id_Some d (set_title_body ttl bdy p) a); try done.
  subst d. simpl. apply list_elem_of_fmap. exists p.
  by rewrite bool_decide_true.
Qed.

(** *** What no request does *)

(** X14: which requests are answered 405.  [/<id>/delete] takes POST
    only, so that a GET or a HEAD to it deletes nothing; [/hello],
    [/auth/logout] and the index take GET, and HEAD with it, but no POST;
    the other routes take GET, HEAD and POST.  OPTIONS is answered by
    Flask for every route.  A request with any other method is answered
    405 and changes nothing, and no other request is answered 405. *)
Theorem method_not_allowed (e : App.endpoint) (st : state) :
  let refused :=
    match e with
    | App.ep_delete _ => method (request st) ∉ [POST; OPTIONS]
    | App.ep_hello | App.ep_logout | App.ep_index =>
        method (request st) ∉ [GET; HEAD; OPTIONS]
    | App.ep_register | App.ep_login | App.ep_create | App.ep_update _ =>
        method (request st) ∉ [GET; HEAD; POST; OPTIONS]
    end in
  (refused →
   ∃ st',
     wsgi_app e st = (Error 405 None, st') ∧
     committed st' = committed st ∧
     session st' = session st ∧
     flashes st' = flashes st) ∧
  (∀ d, (wsgi_app e st).1 = Error 405 d → refused).
Proof.
  assert (Hr : match e with
               | App.ep_delete _ => method (request st) ∉ [POST; OPTIONS]
               | App.ep_hello | App.ep_logout | App.ep_index =>
                   method (request st) ∉ [GET; HEAD; OPTIONS]
               | _ => method (request st) ∉ [GET; HEAD; POST; OPTIONS]
               end
               ↔ method (request st) ≠ OPTIONS ∧
                 method (request st) ∉ App.view_methods e).
  { rewrite elem_of_view_methods.
    destruct e, (method (request st));
      rewrite ?not_elem_of_cons, ?elem_of_nil; intuition congruence. }
  simpl. split.
  - intros [Ho Hm]%Hr.
    rewrite (wsgi_app_no_view _ _ e st) by (by right).
    rewrite decide_False by done. by eexists.
  - intros d H. apply Hr.
    destruct (decide (method (request st) = OPTIONS)) as [Ho|Ho].
    { rewrite (wsgi_app_no_view _ _ e st) in H by (by left).
      by rewrite decide_True in H. }
    split; [done|]. intros Hm.
    rewrite (wsgi_app_reaches_view _ _ e st) in H by done.
    pose proof (view_response e (with_g_user (App.resolve_current_user st)
                                             (App.request_context st))) as Hv.
    destruct (view_function e _) as [[r|ex] st1]; simpl in H, Hv.
    + destruct r; by simplify_eq.
    + destruct ex; simplify_eq/=; by destruct Hv.
Qed.

(** X15: no GET request writes: whatever the endpoint, the session and the
    database file, the database file after a GET is the one before it. *)
Theorem get_never_writes (e : App.endpoint) (st : state) :
  method (request st) = GET →
  committed (wsgi_app e st).2 = committed st.
Proof.
  intros Hm.
  destruct (wsgi_app_effect e st)
    as [H|[(_ & H & _)|[(_ & H & _)|[(? & ? & ? & _ & H & _)|(? & _ & H & _)]]]];
    [done|congruence..].
Qed.

(** X17: no request changes or removes a user: the user table after a
    request is the one before it with at most one row appended, and a row
    is appended only by a POST to register. *)
Theorem user_table_append_only (e : App.endpoint) (st : state) :
  ∃ l,
    user (committed (wsgi_app e st).2) = user (committed st) ++ l ∧
    (length l ≤ 1)%nat ∧
    (l ≠ [] → e = App.ep_register ∧ method (request st) = POST).
Proof.
  destruct (wsgi_app_effect e st)
    as [H|[(He & Hm & name & hash & H)|[(_ & _ & u & ttl & bdy & _ & H)
       |[(id & ttl & bdy & _ & _ & H)|(id & _ & _ & H)]]]].
  - exists []. rewrite H, app_nil_r. split; [done|]. split; [simpl; lia|done].
  - unfold insert_user in H. case_bool_decide; simplify_eq.
    rewrite <- H. eexists. split; [done|]. split; [simpl; lia|done].
  - exists []. rewrite H, app_nil_r. split; [done|]. split; [simpl; lia|done].
  - exists []. rewrite H, app_nil_r. split; [done|]. split; [simpl; lia|done].
  - exists []. rewrite H, app_nil_r. split; [done|]. split; [simpl; lia|done].
Qed.

(** X18: no request changes the id, the author or the creation time of a
    post: a post in the table after a request either has the id, author_id
    and created of a post that was there before, or was inserted by this
    request, a create, with a new id, the current user as author and the
    store's time. *)
Theorem posts_keep_author_and_created (e : App.endpoint) (st : state)
    (p' : post_row) :
  p' ∈ post (committed (wsgi_app e st).2) →
  (∃ p, p ∈ post (committed st) ∧ post_id p' = post_id p ∧
        author_id p' = author_id p ∧ created p' = created p) ∨
  (e = App.ep_create ∧
   ∃ u, App.resolve_current_user st = Some u ∧
        author_id p' = user_id u ∧ created p' = now st ∧
        post_id p' ∉ post_id <$> post (committed st)).
Proof.
  destruct (wsgi_app_effect e st)
    as [H|[(He & Hm & name & hash & H)|[(He & _ & u & ttl & bdy & Hu & H)
       |[(id & ttl & bdy & _ & _ & H)|(id & _ & _ & H)]]]].
  - rewrite H. intros Hp. left. by exists p'.
  - unfold insert_user in H. case_bool_decide; simplify_eq.
    rewrite <- H. simpl. intros Hp. left. by exists p'.
  - rewrite H. simpl. intros [Hp| ->%list_elem_of_singleton]%elem_of_app.
    + left. by exists p'.
    + right. split; [done|]. exists u. simpl. repeat split; try done.
      apply next_id_fresh.
  - rewrite H. simpl. intros (p & -> & Hp)%list_elem_of_fmap.
    left. exists p. split; [done|]. by case_bool_decide.
  - rewrite H. simpl. intros [_ Hp]%list_elem_of_filter. left. by exists p'.
Qed.


End Further.

(** ** The connection a request holds *)

Section ConnectionFacts.
Import Connection.

(** X20: [get_db] opens a connection only when [g] holds none, and keeps
    it in [g]: a second call returns the same connection and changes
    nothing; a call that finds a connection in [g] returns it and opens
    none; a call that finds none opens exactly one, which is open. *)
Theorem get_db_reuses_connection (c : context) :
  get_db (get_db c).2 = get_db c ∧
  g_db (get_db c).2 = Some (get_db c).1 ∧
  (g_db c = None →
   connections (get_db c).2 = connections c ++ [true] ∧
   connections (get_db c).2 !! (get_db c).1 = Some true) ∧
  (∀ conn, g_db c = Some conn → get_db c = (conn, c)).
Proof.
  unfold get_db. destruct (g_db c) as [conn|] eqn:Hg; simpl.
  - rewrite Hg. split; [done|]. split; [done|]. split; [done|].
    by intros ? [= ->].
  - split; [done|]. split; [done|]. split; [|done].
    intros _. split; [done|]. by rewrite lookup_app_r, Nat.sub_diag.
Qed.

(** X21: [close_db] takes the connection out of [g] and closes it, and
    touches no other connection; with no connection in [g] it does
    nothing, so closing twice is closing once.  After [get_db] and
    [close_db] the connection that was opened is closed, and the next
    [get_db] does not return it but opens another. *)
Theorem close_db_closes_connection (c : context) :
  g_db (close_db c) = None ∧
  close_db (close_db c) = close_db c ∧
  length (connections (close_db c)) = length (connections c) ∧
  (g_db c = None → close_db c = c) ∧
  (∀ conn, g_db c = Some conn →
     (∀ other, other ≠ conn →
        connections (close_db c) !! other = connections c !! other) ∧
     (conn < length (connections c) →
      connections (close_db c) !! conn = Some false)%nat) ∧
  (g_db c = None →
   connections (close_db (get_db c).2) = connections c ++ [false] ∧
   (get_db (close_db (get_db c).2)).1 ≠ (get_db c).1).
Proof.
  unfold close_db, get_db. destruct c as [[conn|] l]; simpl.
  - rewrite length_insert.
    split; [done|]. split; [done|]. split; [done|]. split; [done|].
    split; [|done]. intros ? [= <-]. split.
    + intros other Hne. by rewrite list_lookup_insert_ne.
    + intros Hlt. by rewrite list_lookup_insert_eq.
  - split; [done|]. split; [done|]. split; [done|]. split; [done|].
    split; [done|]. intros _. split.
    + rewrite insert_app_r_alt, Nat.sub_diag by done. done.
    + rewrite length_insert, length_app. simpl. lia.
Qed.

End ConnectionFacts.

(** ** More about the views, on the demo site *)

Section FurtherOnTheDemoSite.
Import Demo.

Abbreviation serve := (App.wsgi_app demo_hash demo_check).

(** X1 on the site: alice logs out, with a message waiting to be shown. *)
Lemma logout_ends_session_witness :
  ∃ st',
    serve App.ep_logout
      (with_flashes ["Title is required."] (visit GET [] [("user_id", 1)]))
    = (Redirect 302 "/", st') ∧
    session st' = ∅ ∧
    flashes st' = [] ∧
    App.resolve_current_user st' = None.
Proof.
  destruct (logout_ends_session demo_hash demo_check
              (with_flashes ["Title is required."]
                 (visit GET [] [("user_id", 1)])) eq_refl)
    as (st' & H1 & H2 & H3 & _ & H4).
  by exists st'.
Defined.

(** X2 on the site: alice logs in from a browser where bob was logged
    in, after a first try with a wrong password. *)
Lemma login_establishes_session_witness :
  ∃ st',
    serve App.ep_login
      (with_flashes ["Incorrect password."]
         (visit POST [("username", "alice"); ("password", "pw1")]
                [("user_id", 2)]))
    = (Redirect 302 "/", st') ∧
    session st' = {["user_id" := 1]} ∧
    flashes st' = [] ∧
    App.resolve_current_user st' = Some alice.
Proof.
  destruct (login_establishes_session demo_hash demo_check
              (with_flashes ["Incorrect password."]
                 (visit POST [("username", "alice"); ("password", "pw1")]
                        [("user_id", 2)]))
              "alice" "pw1" alice eq_refl eq_refl eq_refl site_schema_ok)
    as (st' & H1 & H2 & H3 & _ & H4); [repeat constructor|done|by vm_compute|].
  by exists st'.
Defined.

(** X3 on the site: nobody is called carol. *)
Lemma login_unknown_username_witness :
  ∃ st',
    serve App.ep_login
      (visit POST [("username", "carol"); ("password", "pw1")] [])
    = (Page "auth/login.html" NoArgs, st') ∧
    flashes st' = ["Incorrect username."].
Proof.
  destruct (login_unknown_username demo_hash demo_check
              (visit POST [("username", "carol"); ("password", "pw1")] [])
              "carol" "pw1" eq_refl eq_refl eq_refl)
    as (st' & H1 & H2 & _).
  - intros Hin. simpl in Hin. repeat (apply elem_of_cons in Hin as [?|Hin]);
      try done. by apply elem_of_nil in Hin.
  - by exists st'.
Defined.

(** X4 on the site: carol registers, and the same form then logs her
    in. *)
Lemma register_then_login_witness :
  ∃ s' u,
    serve App.ep_login
      (serve App.ep_register
         (visit POST [("username", "carol"); ("password", "pw3")] [])).2
    = (Redirect 302 "/", s') ∧
    App.resolve_current_user s' = Some u ∧
    username u = "carol" ∧
    password u = "hash$pw3".
Proof.
  destruct (register_then_login demo_hash demo_check
              (visit POST [("username", "carol"); ("password", "pw3")] [])
              (serve App.ep_register
                 (visit POST [("username", "carol"); ("password", "pw3")] [])).2
              "carol" "pw3" eq_refl eq_refl eq_refl)
    as (s' & u & H1 & H2 & H3 & H4 & _); try done.
  - intros Hin. simpl in Hin. repeat (apply elem_of_cons in Hin as [?|Hin]);
      try done. by apply elem_of_nil in Hin.
  - by exists s', u.
Defined.

(** X6 on the site: a visitor who is not logged in tries to delete post
    1. *)
Lemma anonymous_is_redirected_witness :
  ∃ st',
    serve (App.ep_delete 1) (visit POST [] [])
    = (Redirect 302 "/auth/login", st') ∧
    committed st' = site.
Proof.
  destruct (anonymous_is_redirected demo_hash demo_check (App.ep_delete 1)
              (visit POST [] []))
    as (st' & H1 & H2 & _);
    [right; right; by exists 1|repeat constructor|done|].
  by exists st'.
Defined.

(** X7 on the site: alice asks for post 9, which is not there, and for
    post 2^63, and tries to delete bob's post 2. *)
Lemma post_guard_blocks_witness :
  (serve (App.ep_update 9) (visit GET [] [("user_id", 1)])).1
  = Error 404 (Some "Post id 9 doesn't exist.") ∧
  (serve (App.ep_update 9223372036854775808)
     (visit GET [] [("user_id", 1)])).1
  = Error 500 None ∧
  serve (App.ep_delete 2) (visit POST [] [("user_id", 1)])
  = (Error 403 None, visit POST [] [("user_id", 1)]).
Proof.
  split; [|split].
  - destruct (post_guard_blocks demo_hash demo_check (App.ep_update 9) 9 alice
                (visit GET [] [("user_id", 1)]))
      as [H _]; [by left|repeat constructor|exact site_schema_ok|done|].
    rewrite H; [done|].
    intros p Hp. repeat (apply elem_of_cons in Hp as [->|Hp]); try done.
    by apply elem_of_nil in Hp.
  - destruct (post_guard_blocks demo_hash demo_check
                (App.ep_update 9223372036854775808) 9223372036854775808 alice
                (visit GET [] [("user_id", 1)]))
      as [H _]; [by left|repeat constructor|exact site_schema_ok|done|].
    rewrite H; [done|].
    intros p Hp. repeat (apply elem_of_cons in Hp as [->|Hp]); try done.
    by apply elem_of_nil in Hp.
  - destruct (post_guard_blocks demo_hash demo_check (App.ep_delete 2) 2 alice
                (visit POST [] [("user_id", 1)]))
      as [_ H]; [by right|repeat constructor|exact site_schema_ok|done|].
    by rewrite (H (PostRow 2 2 250 "second" ""));
      [|repeat constructor|done|done].
Defined.

(** X8 on the site: alice deletes her post 1. *)
Lemma delete_removes_post_witness :
  ∃ st',
    serve (App.ep_delete 1) (visit POST [] [("user_id", 1)])
    = (Redirect 302 "/", st') ∧
    user (committed st') = user site ∧
    post (committed st')
    = [PostRow 2 2 250 "second" ""; PostRow 3 1 100 "third" "again"] ∧
    select_post_by_id 1 (committed st') = None.
Proof.
  eexists. split; [by vm_compute|].
  destruct (delete_removes_post demo_hash demo_check 1
              (visit POST [] [("user_id", 1)]) _ eq_refl)
    as (H1 & H2 & _ & _ & H3).
  split; [done|]. split; [|done]. etrans; [exact H2|by vm_compute].
Defined.

(** X9 on the site: the same delete changed the database file, and alice
    is the author of post 1. *)
Lemma mutation_by_author_only_witness :
  ∃ u p,
    App.resolve_current_user (visit POST [] [("user_id", 1)]) = Some u ∧
    p ∈ post site ∧ post_id p = 1 ∧ author_id p = user_id u.
Proof.
  destruct (mutation_by_author_only demo_hash demo_check (App.ep_delete 1) 1
              (visit POST [] [("user_id", 1)]))
    as (u & p & H1 & H2 & H3 & H4 & _); [by right| |by exists u, p].
  intros H. vm_compute in H. discriminate H.
Defined.

(** X10 on the site: bob writes a post with an empty body. *)
Lemma create_inserts_post_witness :
  ∃ st',
    serve App.ep_create
      (visit POST [("title", "fourth"); ("body", "")] [("user_id", 2)])
    = (Redirect 302 "/", st') ∧
    post (committed st') = post site ++ [PostRow 4 2 300 "fourth" ""] ∧
    PostView 4 "fourth" "" 300 2 "bob" ∈ select_posts (committed st').
Proof.
  destruct (create_inserts_post demo_hash demo_check
              (visit POST [("title", "fourth"); ("body", "")] [("user_id", 2)])
              bob "fourth" "" eq_refl eq_refl eq_refl eq_refl)
    as (st' & id & H1 & _ & H2 & _ & _ & _ & H3); [done|].
  assert (id = 4) as ->.
  { pose proof H1 as Hc. vm_compute in Hc. simplify_eq.
    vm_compute in H2. by simplify_eq. }
  exists st'. split; [exact H1|]. split; [exact H2|exact H3].
Defined.

(** X11 on the site: alice posts a title with no [body] field. *)
Lemma blog_missing_form_key_witness :
  serve App.ep_create (visit POST [("title", "fourth")] [("user_id", 1)])
  = (Error 400 None, visit POST [("title", "fourth")] [("user_id", 1)]) ∧
  serve (App.ep_update 1) (visit POST [("title", "fourth")] [("user_id", 1)])
  = (Error 400 None, visit POST [("title", "fourth")] [("user_id", 1)]).
Proof.
  destruct (blog_missing_form_key demo_hash demo_check
              (visit POST [("title", "fourth")] [("user_id", 1)]) alice
              eq_refl eq_refl (or_intror eq_refl))
    as [H1 H2].
  split; [by rewrite H1|].
  refine (H2 (PostRow 1 1 100 "first" "hello") site_schema_ok _ _);
    [repeat constructor|done].
Defined.

(** X13 on the site: alice retitles her post 1 and reads it back. *)
Lemma update_then_read_witness :
  ∃ st',
    serve (App.ep_update 1)
      (visit POST [("title", "renamed"); ("body", "hi")] [("user_id", 1)])
    = (Redirect 302 "/", st') ∧
    select_post_by_id 1 (committed st')
    = Some (PostView 1 "renamed" "hi" 100 1 "alice").
Proof.
  eexists. split; [by vm_compute|].
  destruct (update_then_read demo_hash demo_check 1
              (visit POST [("title", "renamed"); ("body", "hi")]
                     [("user_id", 1)]) _ site_schema_ok eq_refl)
    as (v & ttl & bdy & Ht & Hb & Hv & H).
  vm_compute in Ht. vm_compute in Hb. vm_compute in Hv. simplify_eq.
  exact H.
Defined.

(** X14 on the site: alice sends a GET to [/1/delete]. *)
Lemma method_not_allowed_witness :
  ∃ st',
    serve (App.ep_delete 1) (visit GET [] [("user_id", 1)])
    = (Error 405 None, st') ∧
    committed st' = site.
Proof.
  destruct (method_not_allowed demo_hash demo_check (App.ep_delete 1)
              (visit GET [] [("user_id", 1)])) as [H _].
  destruct H as (st' & H1 & H2 & _).
  - simpl. rewrite !not_elem_of_cons. by repeat split; [..|apply not_elem_of_nil].
  - by exists st'.
Defined.

(** X15 on the site: alice opens the form of her post 1. *)
Lemma get_never_writes_witness :
  committed (serve (App.ep_update 1) (visit GET [] [("user_id", 1)])).2 = site.
Proof.
  by rewrite (get_never_writes demo_hash demo_check (App.ep_update 1)
                (visit GET [] [("user_id", 1)]) eq_refl).
Defined.

(** X16 on the site: the database file after bob's new post. *)
Lemma wsgi_app_schema_ok_witness :
  schema_ok
    (committed
       (serve App.ep_create
          (visit POST [("title", "fourth"); ("body", "")] [("user_id", 2)])).2).
Proof.
  apply (wsgi_app_schema_ok demo_hash demo_check App.ep_create
           (visit POST [("title", "fourth"); ("body", "")] [("user_id", 2)])).
  exact site_schema_ok.
Defined.

(** X18 on the site: after bob's new post, alice's post 3 is as it was. *)
Lemma posts_keep_author_and_created_witness :
  (∃ p, p ∈ post site ∧ 3 = post_id p ∧ 1 = author_id p ∧ 100 = created p) ∨
  (App.ep_create = App.ep_create ∧
   ∃ u,
     App.resolve_current_user
       (visit POST [("title", "fourth"); ("body", "")] [("user_id", 2)])
     = Some u ∧
     1 = user_id u ∧ 100 = 300 ∧ 3 ∉ post_id <$> post site).
Proof.
  apply (posts_keep_author_and_created demo_hash demo_check App.ep_create
           (visit POST [("title", "fourth"); ("body", "")] [("user_id", 2)])
           (PostRow 3 1 100 "third" "again")).
  vm_compute. repeat constructor.
Defined.

End FurtherOnTheDemoSite.
